(** * oracle-price-feeder: the helper scripts

    A shallow embedding of [scripts/check-evm-rpc.py] (the JSON-RPC
    liveness probe) and of [scripts/map-kraken-pairs.py] (the Kraken pair
    mapping), with the properties of the probe and of the mapping that
    the specification states.

    Conventions of the embedding:
    - a Python [int] is a [Z]; a [str] is a [string], one [ascii] per code
      point (code points below 256);
    - a value decoded from JSON is a [value]; a [dict] is the list of its
      items in insertion order;
    - [print], [requests.post] and the ways a run can end ([sys.exit], an
      uncaught exception) are threaded through a state-and-termination
      monad [M]. *)

From Stdlib Require Import ZArith String Ascii List Bool Lia.
From Stdlib Require Import SpecFloat.
Import ListNotations.

Local Open Scope string_scope.
Local Open Scope Z_scope.

(** ** Python values *)

Module Py.

(** What [json.loads] can return, and what the scripts build themselves. *)
#[warnings="-register-all"]
Inductive value : Type :=
| VNone
| VBool (b : bool)
| VInt (n : Z)
| VFloat (f : spec_float)
| VStr (s : string)
| VList (l : list value)
| VDict (d : list (string * value)).

(** Truth value of an object, as [if x:] and [not x] test it. *)
Definition truthy (v : value) : bool :=
  match v with
  | VNone => false
  | VBool b => b
  | VInt n => negb (n =? 0)
  | VFloat (S754_zero _) => false
  | VFloat _ => true
  | VStr s => negb (String.eqb s "")
  | VList l => match l with [] => false | _ => true end
  | VDict d => match d with [] => false | _ => true end
  end.

(** [x == None]: among these values only [None] equals [None]. *)
Definition is_None (v : value) : bool :=
  match v with VNone => true | _ => false end.

(** *** Dictionaries *)

(** [d.get(k)] without default, at the level of the items. *)
Fixpoint lookup {A : Type} (k : string) (d : list (string * A)) : option A :=
  match d with
  | [] => None
  | (k', v) :: d' => if String.eqb k k' then Some v else lookup k d'
  end.

(** [d.get(k)]: the value bound to [k], [None] when there is none. *)
Definition dict_get (d : list (string * value)) (k : string) : value :=
  match lookup k d with
  | Some v => v
  | None => VNone
  end.

(** [d[k] = v]: an existing key keeps its place, a new one goes last. *)
Fixpoint dict_set {A : Type} (k : string) (v : A) (d : list (string * A))
  : list (string * A) :=
  match d with
  | [] => [(k, v)]
  | (k', v') :: d' =>
      if String.eqb k k' then (k', v) :: d' else (k', v') :: dict_set k v d'
  end.

(** *** Exceptions the scripts can let escape *)

Inductive exn : Type :=
| RequestException   (* [requests.post] itself failed: no response *)
| HTTPError          (* [raise_for_status] on a 4xx or 5xx status *)
| JSONDecodeError    (* [response.json()] on a body that is not JSON *)
| AttributeError
| TypeError
| ValueError
| KeyError.

(** *** [hex] *)

Definition hex_char (d : Z) : ascii :=
  nth (Z.to_nat d) (list_ascii_of_string "0123456789abcdef") "0"%char.

(** The digits of [n], most significant first, in front of [acc]. *)
Fixpoint hex_digits (fuel : nat) (n : Z) (acc : string) : string :=
  let acc' := String (hex_char (n mod 16)) acc in
  match fuel with
  | O => acc'
  | S fuel' => if n <? 16 then acc' else hex_digits fuel' (n / 16) acc'
  end.

(** Magnitude part of [hex]: no leading zero, ["0"] for zero. *)
Definition hex_abs (n : Z) : string :=
  hex_digits (Z.to_nat (Z.log2 n)) n "".

(** [hex(n)]: sign, ["0x"], lower-case digits. *)
Definition hex (n : Z) : string :=
  (if n <? 0 then "-" else "") ++ "0x" ++ hex_abs (Z.abs n).

(** *** [int(s, 0)]

    The string is stripped of white space on both sides; then come an
    optional sign, an optional base prefix ([0x], [0o], [0b], either case)
    and the digits, where single underscores may separate digits and may
    follow the prefix.  Without a prefix the literal is decimal, and a
    decimal literal that starts with [0] has to be zero.  The optional
    interpreter limit on the length of decimal literals is left out; it
    never applies to prefixed literals in base 2, 8 or 16. *)

Definition code (c : ascii) : Z := Z.of_N (N_of_ascii c).

(** White space for [int]: tab to carriage return, space, and the two
    white-space code points between 128 and 255. *)
Definition is_space (c : ascii) : bool :=
  let n := code c in
  ((9 <=? n) && (n <=? 13)) || (n =? 32) || (n =? 133) || (n =? 160).

Fixpoint lstrip (s : string) : string :=
  match s with
  | String c s' => if is_space c then lstrip s' else s
  | EmptyString => s
  end.

Fixpoint all_space (s : string) : bool :=
  match s with
  | String c s' => is_space c && all_space s'
  | EmptyString => true
  end.

(** Value of a character as a digit, 37 when it is not alphanumeric. *)
Definition digit_value (c : ascii) : Z :=
  let n := code c in
  if (48 <=? n) && (n <=? 57) then n - 48
  else if (97 <=? n) && (n <=? 122) then n - 87
  else if (65 <=? n) && (n <=? 90) then n - 55
  else 37.

(** Reads digits and underscores as long as there are any.  [prev] tells
    whether the previous character was an underscore, [any] whether a
    digit has been read.  [None]: two underscores in a row, or one at the
    end of the digits. *)
Fixpoint scan_digits (base : Z) (s : string) (prev any : bool) (acc : Z)
  : option (Z * bool * string) :=
  match s with
  | String c s' =>
      if Ascii.eqb c "_" then
        if prev then None else scan_digits base s' true any acc
      else if digit_value c <? base then
        scan_digits base s' false true (acc * base + digit_value c)
      else if prev then None else Some (acc, any, s)
  | EmptyString => if prev then None else Some (acc, any, s)
  end.

Definition skip_underscore (s : string) : string :=
  match s with
  | String c s' => if Ascii.eqb c "_" then s' else s
  | EmptyString => s
  end.

(** Base of the literal, whether it has to be zero, and what follows the
    prefix. *)
Definition base_prefix (s : string) : Z * bool * string :=
  match s with
  | String c0 (String c1 r) =>
      if negb (Ascii.eqb c0 "0") then (10, false, s)
      else if Ascii.eqb c1 "x" || Ascii.eqb c1 "X" then (16, false, skip_underscore r)
      else if Ascii.eqb c1 "o" || Ascii.eqb c1 "O" then (8, false, skip_underscore r)
      else if Ascii.eqb c1 "b" || Ascii.eqb c1 "B" then (2, false, skip_underscore r)
      else (10, true, s)
  | String c0 EmptyString => (10, Ascii.eqb c0 "0", s)
  | EmptyString => (10, false, s)
  end.

Definition split_sign (s : string) : Z * string :=
  match s with
  | String c s' =>
      if Ascii.eqb c "+" then (1, s')
      else if Ascii.eqb c "-" then (-1, s')
      else (1, s)
  | EmptyString => (1, s)
  end.

Definition starts_with_underscore (s : string) : bool :=
  match s with
  | String c _ => Ascii.eqb c "_"
  | EmptyString => false
  end.

(** [int(s, 0)] on a string; [None] stands for [ValueError]. *)
Definition int_base0 (s : string) : option Z :=
  let '(sign, s1) := split_sign (lstrip s) in
  let '(base, must_be_zero, s2) := base_prefix s1 in
  if starts_with_underscore s2 then None
  else
    match scan_digits base s2 false false 0 with
    | None => None
    | Some (n, any, rest) =>
        if negb any then None
        else if must_be_zero && negb (n =? 0) then None
        else if all_space rest then Some (sign * n)
        else None
    end.

(** [s.split(sep)] for a separator of one character. *)
Fixpoint split (sep : ascii) (s : string) : list string :=
  match s with
  | EmptyString => [""]
  | String c s' =>
      if Ascii.eqb c sep then "" :: split sep s'
      else
        match split sep s' with
        | p :: ps => String c p :: ps
        | [] => [String c ""]
        end
  end.

End Py.

(** ** Running a script

    What a run has done so far, and how a call can end. *)

Module Run.
Import Py.

(** A call of [requests.post(url, json=...)]. *)
Record request : Type := { url : string; json : value }.

(** What came back: the status code, and what [response.json()] makes of
    the body ([None] when the body is not JSON). *)
Record response : Type := { status_code : Z; body : option value }.

(** The other side of the wire: given the requests of this run so far and
    the new one, the response, or [None] when there is none (no
    connection, bad URL, ...), in which case [requests.post] raises. *)
Definition network : Type := list request -> request -> option response.

(** The arguments of the [print] calls so far, and the requests sent. *)
Record world : Type := { stdout : list value; sent : list request }.

Definition start : world := {| stdout := []; sent := [] |}.

Inductive outcome (A : Type) : Type :=
| Value (a : A)        (* the call returned [a] *)
| Exit (status : Z)    (* [SystemExit] with this status *)
| Raise (e : exn).     (* an exception nobody catches *)
Arguments Value {A} a.
Arguments Exit {A} status.
Arguments Raise {A} e.

Definition M (A : Type) : Type := world -> outcome A * world.

Definition ret {A : Type} (a : A) : M A := fun w => (Value a, w).

Definition bind {A B : Type} (m : M A) (k : A -> M B) : M B :=
  fun w =>
    match m w with
    | (Value a, w') => k a w'
    | (Exit c, w') => (Exit c, w')
    | (Raise e, w') => (Raise e, w')
    end.

Definition raise {A : Type} (e : exn) : M A := fun w => (Raise e, w).

(** [sys.exit(status)] *)
Definition sys_exit {A : Type} (status : Z) : M A := fun w => (Exit status, w).

(** [print(v)] *)
Definition print (v : value) : M unit :=
  fun w => (Value tt, {| stdout := stdout w ++ [v]; sent := sent w |}).

(** [if cond: body] *)
Definition when (cond : bool) (body : M unit) : M unit :=
  if cond then body else ret tt.

End Run.

Declare Scope run_scope.
Delimit Scope run_scope with run.
Notation "x <- m ;; k" := (Run.bind m (fun x => k))
  (at level 100, m at next level, right associativity) : run_scope.
Notation "m ;; k" := (Run.bind m (fun _ => k))
  (at level 100, right associativity) : run_scope.

(** ** scripts/check-evm-rpc.py *)

Module CheckEvmRpc.
Import Py Run.
Local Open Scope run_scope.

Definition ADDRESSES : list (string * string) :=
  [("camelotv3", "0x22427d20480de289795ca29c3adddb57a568e285")].

(** The [choices] of the [provider] argument. *)
Definition choices : list string := ["camelotv3"].

Record Namespace : Type := { provider : string; endpoint : string }.

(** [parse_args], on a command line that consists of the two positional
    arguments.  A provider outside [choices] makes [argparse] report the
    invalid choice and exit with status 2.  What [argparse] does with
    other command lines is left out: [-h] prints the usage and exits with
    status 0, an unknown flag or a missing or surplus argument exits with
    status 2, in each case before [main] does anything. *)
Definition parse_args (argv : string * string) : M Namespace :=
  let '(p, e) := argv in
  if existsb (String.eqb p) choices
  then ret {| provider := p; endpoint := e |}
  else sys_exit 2.

Definition error_status (r : response) : bool :=
  (400 <=? status_code r) && (status_code r <? 600).

Section Probe.

Variable net : network.

(** [requests.post(endpoint, json=data)] *)
Definition post (endpoint : string) (data : value) : M response :=
  fun w =>
    let r := {| url := endpoint; json := data |} in
    let w' := {| stdout := stdout w; sent := sent w ++ [r] |} in
    match net (sent w) r with
    | Some resp => (Value resp, w')
    | None => (Raise RequestException, w')
    end.

(** [response.raise_for_status()]: a 4xx or a 5xx status raises. *)
Definition raise_for_status (r : response) : M unit :=
  if error_status r then raise HTTPError else ret tt.

(** [response.json()] *)
Definition response_json (r : response) : M value :=
  match body r with
  | Some v => ret v
  | None => raise JSONDecodeError
  end.

(** [data.get(key)]: only a dict has the method. *)
Definition get (data : value) (key : string) : M value :=
  match data with
  | VDict d => ret (dict_get d key)
  | _ => raise AttributeError
  end.

(** The JSON-RPC envelope that [rpc_call] posts. *)
Definition rpc_data (method : string) (params : value) : value :=
  VDict [("jsonrpc", VStr "2.0");
         ("method", VStr method);
         ("params", params);
         ("id", VInt 1)].

Definition rpc_call (endpoint method : string) (params : value) : M value :=
  response <- post endpoint (rpc_data method params) ;;
  raise_for_status response ;;
  data <- response_json response ;;
  error <- get data "error" ;;
  if truthy error then
    (print error ;; sys_exit 1)
  else
    (data' <- response_json response ;; get data' "result").

(** [int(height, 0)]: a [TypeError] unless [height] is a string. *)
Definition int0 (height : value) : M Z :=
  match height with
  | VStr s =>
      match int_base0 s with
      | Some n => ret n
      | None => raise ValueError
      end
  | _ => raise TypeError
  end.

(** Returns [None] or an [int]. *)
Definition get_height (endpoint : string) : M (option Z) :=
  height <- rpc_call endpoint "eth_blockNumber" (VList []) ;;
  if negb (truthy height) then
    (print (VStr "no height found") ;; ret None)
  else
    (n <- int0 height ;; ret (Some n)).

(** [address] as the element of a list: a string or [None]. *)
Definition address_value (address : option string) : value :=
  match address with
  | Some a => VStr a
  | None => VNone
  end.

Definition logs_params (h : Z) (address : option string) : value :=
  VDict [("fromBlock", VStr (hex (h - 2000)));
         ("toBlock", VStr (hex h));
         ("address", VList [address_value address]);
         ("topics", VList [])].

(** [height] is what [get_height] returned; [None - 2000] is a
    [TypeError]. *)
Definition get_logs (endpoint : string) (height : option Z)
    (address : option string) : M value :=
  match height with
  | None => raise TypeError
  | Some h => rpc_call endpoint "eth_getLogs" (VList [logs_params h address])
  end.

(** [not address] for the result of [ADDRESSES.get]. *)
Definition no_address (address : option string) : bool :=
  match address with
  | None => true
  | Some a => String.eqb a ""
  end.

(** The body of [main] after [args = parse_args()]. *)
Definition main_with (args : Namespace) : M unit :=
  height <- get_height (endpoint args) ;;
  let address := lookup (provider args) ADDRESSES in
  when (no_address address)
    (print (VStr ("no address found for provider " ++ provider args))) ;;
  logs <- get_logs (endpoint args) height address ;;
  when (is_None logs) (print (VStr "this shouldn't happen")) ;;
  print (VStr "ok").

Definition main (argv : string * string) : M unit :=
  args <- parse_args argv ;;
  main_with args.

End Probe.

End CheckEvmRpc.

(** ** scripts/map-kraken-pairs.py *)

Module MapKrakenPairs.
Import Py Run.

(** How a run of the script ends. *)
Inductive result : Type :=
| Printed (mapping : list (string * string))  (* [print(json.dumps(mapping))] *)
| Logged (message : string)                   (* [logging.error(message)], then [return] *)
| Raised (e : exn).

(** [pair["wsname"]]: [KeyError] on a dict without the key, [TypeError] on
    anything that is not a dict. *)
Definition wsname_of (info : value) : exn + value :=
  match info with
  | VDict d =>
      match lookup "wsname" d with
      | Some v => inr v
      | None => inl KeyError
      end
  | _ => inl TypeError
  end.

(** [base, quote = wsname.split("/")]: only a string has [split], and the
    unpacking wants exactly two parts. *)
Definition base_quote (wsname : value) : exn + (string * string) :=
  match wsname with
  | VStr s =>
      match split "/" s with
      | [base; quote] => inr (base, quote)
      | _ => inl ValueError
      end
  | _ => inl AttributeError
  end.

(** One turn of the loop over [pairs.items()]; [info] is the source's
    [pair]. *)
Definition visit (mapping : list (string * string)) (item : string * value)
  : exn + list (string * string) :=
  let '(symbol, info) := item in
  match wsname_of info with
  | inl e => inl e
  | inr wsname =>
      match base_quote wsname with
      | inl e => inl e
      | inr (base, quote) =>
          if negb (String.eqb (base ++ quote) symbol)
          then inr (dict_set (base ++ quote) symbol mapping)
          else inr mapping
      end
  end.

Fixpoint visit_all (items : list (string * value))
    (mapping : list (string * string)) : exn + list (string * string) :=
  match items with
  | [] => inr mapping
  | item :: items' =>
      match visit mapping item with
      | inl e => inl e
      | inr mapping' => visit_all items' mapping'
      end
  end.

(** [data.get("result", {})] *)
Definition get_result (data : value) : exn + value :=
  match data with
  | VDict d =>
      match lookup "result" d with
      | Some v => inr v
      | None => inr (VDict [])
      end
  | _ => inl AttributeError
  end.

(** [reply] is what [requests.get] of the AssetPairs URL gives, [None]
    when it raises. *)
Definition main (reply : option response) : result :=
  match reply with
  | None => Raised RequestException
  | Some response =>
      if negb (status_code response =? 200) then Logged "Failed to get asset pairs"
      else
        match body response with
        | None => Raised JSONDecodeError
        | Some data =>
            match get_result data with
            | inl e => Raised e
            | inr (VDict pairs) =>
                match visit_all pairs [] with
                | inl e => Raised e
                | inr mapping => Printed mapping
                end
            | inr _ => Raised AttributeError
            end
        end
  end.

End MapKrakenPairs.

(** ** Vocabulary of the statements *)

Module Spec.
Import Py Run CheckEvmRpc.

(** A network that answers the calls of a run in order with [replies]
    and has no answer after that. *)
Definition scripted (replies : list response) : network :=
  fun history _ => nth_error replies (length history).

(** A response with status 200 whose body is the JSON object [d]. *)
Definition ok200 (d : list (string * value)) : response :=
  {| status_code := 200; body := Some (VDict d) |}.

(** The call [req], made after the requests [history], is answered: a
    response without error status that carries the JSON object [d]. *)
Definition answers (net : network) (history : list request) (req : request)
    (d : list (string * value)) : Prop :=
  exists resp,
    net history req = Some resp /\
    error_status resp = false /\
    body resp = Some (VDict d).

Definition height_request (endpoint : string) : request :=
  {| url := endpoint; json := rpc_data "eth_blockNumber" (VList []) |}.

Definition logs_request (endpoint : string) (h : Z) (address : option string)
  : request :=
  {| url := endpoint;
     json := rpc_data "eth_getLogs" (VList [logs_params h address]) |}.

(** Lower-case hexadecimal digit. *)
Definition is_hex_lower (c : ascii) : bool :=
  let n := code c in
  ((48 <=? n) && (n <=? 57)) || ((97 <=? n) && (n <=? 102)).

Fixpoint all_hex_lower (s : string) : bool :=
  match s with
  | String c s' => is_hex_lower c && all_hex_lower s'
  | EmptyString => true
  end.

(** The digits of a canonical literal: at least one, and no leading zero
    except in ["0"] itself. *)
Definition canonical_digits (s : string) : bool :=
  match s with
  | String c s' =>
      all_hex_lower s && (negb (Ascii.eqb c "0") || String.eqb s' "")
  | EmptyString => false
  end.

(** Canonical block height: ["0x"] and canonical digits. *)
Definition canonical_hex (s : string) : bool :=
  match s with
  | String c0 (String c1 ds) =>
      Ascii.eqb c0 "0" && Ascii.eqb c1 "x" && canonical_digits ds
  | _ => false
  end.

(** What [main] prints when the registry has no address for [p]. *)
Definition address_warning (p : string) : list value :=
  if no_address (lookup p ADDRESSES)
  then [VStr ("no address found for provider " ++ p)]
  else [].

(** What [main] prints when the logs are [None]. *)
Definition logs_warning (logs : value) : list value :=
  if is_None logs then [VStr "this shouldn't happen"] else [].

(** *** Concrete runs *)

Definition rpc_url : string := "https://arb1.arbitrum.io/rpc".

Definition kujiweth : string := "0x22427d20480de289795ca29c3adddb57a568e285".

(** The height call is answered with [height], the logs call with
    [logs]. *)
Definition two_replies (height logs : list (string * value)) : network :=
  scripted [ok200 height; ok200 logs].

(** A height reply in the style of JSON-RPC 1.0, with both members. *)
Definition height_with_null_error : list (string * value) :=
  [("jsonrpc", VStr "2.0"); ("id", VInt 1);
   ("error", VNone); ("result", VStr "0x1388")].

Definition rpc_error_payload : value :=
  VDict [("code", VInt (-32000)); ("message", VStr "x")].

(** *** The pair mapping *)

(** An entry of [pairs] that the loop can handle: a dict whose [wsname]
    is a string with exactly one slash. *)
Definition wsname_ok (item : string * value) : bool :=
  match snd item with
  | VDict d =>
      match lookup "wsname" d with
      | Some (VStr ws) =>
          match split "/" ws with
          | [_; _] => true
          | _ => false
          end
      | _ => false
      end
  | _ => false
  end.

(** No entry maps a name to itself. *)
Definition no_identity (mapping : list (string * string)) : Prop :=
  forall k v, In (k, v) mapping -> k <> v.

Definition asset_pair (altname wsname : string) : value :=
  VDict [("altname", VStr altname); ("wsname", VStr wsname)].

(** A reply of the AssetPairs endpoint with three pairs, one of them
    named as the concatenation of its base and quote. *)
Definition asset_pairs_reply : response :=
  ok200 [("error", VList []);
         ("result", VDict [("XXBTZUSD", asset_pair "XBTUSD" "XBT/USD");
                           ("ADAUSD", asset_pair "ADAUSD" "ADA/USD");
                           ("XETHZEUR", asset_pair "ETHEUR" "ETH/EUR")])].

End Spec.

(** ** scripts/convert.py *)

Module Convert.
Import Py.

(** White space for [str.strip()]: tab to carriage return, the four
    separators 28 to 31, space, and the two white-space code points
    between 128 and 255. *)
Definition is_whitespace (c : ascii) : bool :=
  let n := code c in
  ((9 <=? n) && (n <=? 13)) || ((28 <=? n) && (n <=? 32))
  || (n =? 133) || (n =? 160).

Fixpoint lstrip_ws (s : string) : string :=
  match s with
  | String c s' => if is_whitespace c then lstrip_ws s' else s
  | EmptyString => s
  end.

Fixpoint rstrip_ws (s : string) : string :=
  match s with
  | String c s' =>
      match rstrip_ws s' with
      | EmptyString => if is_whitespace c then "" else String c ""
      | r => String c r
      end
  | EmptyString => ""
  end.

(** [line.strip()] *)
Definition strip (s : string) : string := rstrip_ws (lstrip_ws s).

(** [s.replace(a, b)] for two strings of one character. *)
Fixpoint replace (a b : ascii) (s : string) : string :=
  match s with
  | String c s' => String (if Ascii.eqb c a then b else c) (replace a b s')
  | EmptyString => ""
  end.

(** [int(s)]: a decimal literal, where leading zeros are allowed and no
    base prefix is; [None] stands for [ValueError]. *)
Definition int_base10 (s : string) : option Z :=
  let '(sign, s1) := split_sign (lstrip s) in
  if starts_with_underscore s1 then None
  else
    match scan_digits 10 s1 false false 0 with
    | None => None
    | Some (n, any, rest) =>
        if negb any then None
        else if all_space rest then Some (sign * n)
        else None
    end.

(** What a line can raise. *)
Inductive failure : Type :=
| BadInteger      (* [ValueError] of [int(parts[0])] *)
| BadTimestamp    (* what [utcfromtimestamp] raises out of its range *)
| MissingField.   (* [IndexError] of [parts[1]] or [parts[2]] *)

Inductive result : Type :=
| Printed (out : list value)    (* [print(json.dumps(out))] *)
| Raised (e : failure).

Section Clock.

(** [datetime.utcfromtimestamp(n).strftime('%Y-%m-%dT%H:%M:%S.000Z')],
    [None] when the timestamp is out of the range of the platform. *)
Variable utc_iso : Z -> option string.

(** [parts[i]] *)
Definition field (parts : list string) (i : nat) : failure + string :=
  match nth_error parts i with
  | Some p => inr p
  | None => inl MissingField
  end.

(** The body of the loop: the record of one line.  The values of the
    dict are computed in the order of its keys. *)
Definition record_of (line : string) : failure + value :=
  let parts := split ";" (strip line) in
  match field parts 0 with
  | inl e => inl e
  | inr p0 =>
      match int_base10 p0 with
      | None => inl BadInteger
      | Some n =>
          match utc_iso n with
          | None => inl BadTimestamp
          | Some t =>
              match field parts 1 with
              | inl e => inl e
              | inr p1 =>
                  match field parts 2 with
                  | inl e => inl e
                  | inr p2 =>
                      inr (VDict [("time", VStr t);
                                  ("price", VStr (replace "," "." p1));
                                  ("volume", VStr (replace "," "." p2))])
                  end
              end
          end
      end
  end.

Fixpoint records (lines : list string) (out : list value)
  : failure + list value :=
  match lines with
  | [] => inr out
  | line :: lines' =>
      match record_of line with
      | inl e => inl e
      | inr r => records lines' (out ++ [r])
      end
  end.

(** [lines] is [open(args.csv).readlines()]; the first one is skipped. *)
Definition main (lines : list string) : result :=
  match records (tl lines) [] with
  | inl e => Raised e
  | inr out => Printed out
  end.

End Clock.

End Convert.

(** ** More vocabulary *)

Module Vocabulary.
Import Py Run CheckEvmRpc.

(** The character [c] does not occur in [s]. *)
Fixpoint free_of (c : ascii) (s : string) : bool :=
  match s with
  | String x s' => negb (Ascii.eqb x c) && free_of c s'
  | EmptyString => true
  end.

(** The assignment [mapping[base + quote] = symbol] that the loop of
    map-kraken-pairs makes for one item, if it makes one. *)
Definition assignment (item : string * value) : list (string * string) :=
  match MapKrakenPairs.wsname_of (snd item) with
  | inr wsname =>
      match MapKrakenPairs.base_quote wsname with
      | inr (base, quote) =>
          if negb (String.eqb (base ++ quote) (fst item))
          then [(base ++ quote, fst item)]
          else []
      | inl _ => []
      end
  | inl _ => []
  end.

(** All the assignments of the loop, in order. *)
Definition assignments (items : list (string * value))
  : list (string * string) :=
  flat_map assignment items.

(** A table of two instants with their renderings, to run the converter
    on.  It stands for the clock only at these two instants. *)
Definition two_instants (n : Z) : option string :=
  if n =? 0 then Some "1970-01-01T00:00:00.000Z"
  else if n =? 1700000000 then Some "2023-11-14T22:13:20.000Z"
  else None.

(** A price file with a header and two rows, newline at the end of each
    line. *)
Definition price_file : list string :=
  [String.append "time;price;volume" (String "010" "");
   String.append "0;0,25;1000" (String "010" "");
   String.append "1700000000;1,5;12,75;note" (String "010" "")].

End Vocabulary.

(** * Properties *)

Import Py Run CheckEvmRpc Spec Vocabulary.
Local Open Scope run_scope.

(** ** The monad *)

Lemma bind_value {A B : Type} (m : M A) (k : A -> M B) w a w' :
  m w = (Value a, w') -> bind m k w = k a w'.
Proof. intros H. unfold bind. rewrite H. reflexivity. Qed.

Lemma bind_exit {A B : Type} (m : M A) (k : A -> M B) w c w' :
  m w = (Exit c, w') -> bind m k w = (Exit c, w').
Proof. intros H. unfold bind. rewrite H. reflexivity. Qed.

Lemma bind_raise {A B : Type} (m : M A) (k : A -> M B) w e w' :
  m w = (Raise e, w') -> bind m k w = (Raise e, w').
Proof. intros H. unfold bind. rewrite H. reflexivity. Qed.

(** ** [rpc_call] *)

(** Every way a call of [rpc_call] can go. *)
Lemma rpc_call_cases net endpoint method params w :
  let req := {| url := endpoint; json := rpc_data method params |} in
  let w' := {| stdout := stdout w; sent := sent w ++ [req] |} in
  rpc_call net endpoint method params w =
  match net (sent w) req with
  | None => (Raise RequestException, w')
  | Some resp =>
      if error_status resp then (Raise HTTPError, w')
      else
        match body resp with
        | None => (Raise JSONDecodeError, w')
        | Some (VDict d) =>
            if truthy (dict_get d "error")
            then (Exit 1, {| stdout := stdout w ++ [dict_get d "error"];
                             sent := sent w ++ [req] |})
            else (Value (dict_get d "result"), w')
        | Some _ => (Raise AttributeError, w')
        end
  end.
Proof.
  intros req w'. unfold rpc_call, bind, post, raise_for_status, response_json.
  fold req. destruct (net (sent w) req) as [resp|]; [|reflexivity].
  destruct (error_status resp); [reflexivity|]. cbn.
  destruct (body resp) as [[| | | | | |d]|]; try reflexivity.
  cbn. destruct (truthy (dict_get d "error")); reflexivity.
Qed.

Lemma rpc_call_sent net endpoint method params w :
  sent (snd (rpc_call net endpoint method params w)) =
  (sent w ++ [{| url := endpoint; json := rpc_data method params |}])%list.
Proof.
  rewrite rpc_call_cases. cbv zeta.
  destruct (net _ _) as [resp|]; [|reflexivity].
  destruct (error_status resp); [reflexivity|].
  destruct (body resp) as [[| | | | | |d]|]; try reflexivity.
  destruct (truthy _); reflexivity.
Qed.

(** An answered call whose [error] is truthy prints it and exits. *)
Lemma rpc_call_error net endpoint method params w d :
  answers net (sent w) {| url := endpoint; json := rpc_data method params |} d ->
  truthy (dict_get d "error") = true ->
  rpc_call net endpoint method params w =
  (Exit 1, {| stdout := stdout w ++ [dict_get d "error"];
              sent := sent w ++ [{| url := endpoint; json := rpc_data method params |}] |}).
Proof.
  intros (resp & Hnet & Hst & Hbody) Herr.
  rewrite rpc_call_cases. cbv zeta. rewrite Hnet, Hst, Hbody, Herr. reflexivity.
Qed.

(** An answered call whose [error] is falsy returns the [result]. *)
Lemma rpc_call_result net endpoint method params w d :
  answers net (sent w) {| url := endpoint; json := rpc_data method params |} d ->
  truthy (dict_get d "error") = false ->
  rpc_call net endpoint method params w =
  (Value (dict_get d "result"),
   {| stdout := stdout w;
      sent := sent w ++ [{| url := endpoint; json := rpc_data method params |}] |}).
Proof.
  intros (resp & Hnet & Hst & Hbody) Herr.
  rewrite rpc_call_cases. cbv zeta. rewrite Hnet, Hst, Hbody, Herr. reflexivity.
Qed.

(** ** [get_height] *)

Lemma int_base0_nonempty s h : int_base0 s = Some h -> truthy (VStr s) = true.
Proof. destruct s; [discriminate | reflexivity]. Qed.

Lemma get_height_decoded net endpoint w d s h :
  answers net (sent w) (height_request endpoint) d ->
  truthy (dict_get d "error") = false ->
  dict_get d "result" = VStr s ->
  int_base0 s = Some h ->
  get_height net endpoint w =
  (Value (Some h),
   {| stdout := stdout w; sent := (sent w ++ [height_request endpoint])%list |}).
Proof.
  intros Hans Herr Hres Hint. unfold get_height.
  rewrite (bind_value _ _ _ _ _ (rpc_call_result _ _ _ _ _ _ Hans Herr)).
  rewrite Hres, (int_base0_nonempty _ _ Hint). cbn. unfold bind. cbn.
  rewrite Hint. reflexivity.
Qed.

Lemma get_height_missing net endpoint w d :
  answers net (sent w) (height_request endpoint) d ->
  truthy (dict_get d "error") = false ->
  truthy (dict_get d "result") = false ->
  get_height net endpoint w =
  (Value None,
   {| stdout := (stdout w ++ [VStr "no height found"])%list;
      sent := (sent w ++ [height_request endpoint])%list |}).
Proof.
  intros Hans Herr Hres. unfold get_height.
  rewrite (bind_value _ _ _ _ _ (rpc_call_result _ _ _ _ _ _ Hans Herr)).
  rewrite Hres. reflexivity.
Qed.

Lemma get_height_error net endpoint w d :
  answers net (sent w) (height_request endpoint) d ->
  truthy (dict_get d "error") = true ->
  get_height net endpoint w =
  (Exit 1,
   {| stdout := (stdout w ++ [dict_get d "error"])%list;
      sent := (sent w ++ [height_request endpoint])%list |}).
Proof.
  intros Hans Herr. unfold get_height.
  apply bind_exit. apply (rpc_call_error _ _ _ _ _ _ Hans Herr).
Qed.

(** ** [parse_args] *)

Lemma accepted_provider p : In p choices -> p = "camelotv3".
Proof. intros [H | []]. symmetry. exact H. Qed.

Lemma main_accepted net p e w :
  In p choices ->
  main net (p, e) w = main_with net {| provider := p; endpoint := e |} w.
Proof. intros H. rewrite (accepted_provider p H). reflexivity. Qed.

Lemma unregistered_not_a_choice p :
  lookup p ADDRESSES = None -> existsb (String.eqb p) choices = false.
Proof.
  cbn. destruct (String.eqb p "camelotv3"); [discriminate | reflexivity].
Qed.

(** ** The probe *)

(** C1 (counterexample).  A height reply that carries an [error] member
    with the value [null] beside its [result] is not taken for an error:
    the probe goes on, sends the [eth_getLogs] call and ends with ["ok"]. *)
Lemma height_error_null_continues :
  let net := two_replies height_with_null_error [("result", VList [])] in
  let run := main net ("camelotv3", rpc_url) start in
  answers net [] (height_request rpc_url) height_with_null_error /\
  lookup "error" height_with_null_error = Some VNone /\
  fst run = Value tt /\
  fst run <> Exit 1 /\
  stdout (snd run) = [VStr "ok"] /\
  sent (snd run) =
    [height_request rpc_url; logs_request rpc_url 5000 (Some kujiweth)].
Proof.
  cbv zeta. split.
  - exists (ok200 height_with_null_error). repeat split.
  - repeat split; try reflexivity. discriminate.
Qed.

(** C1 (amended).  When the answer to the [eth_blockNumber] call carries
    a truthy [error], the probe prints that payload, exits with status 1
    and has sent nothing but the height call. *)
Theorem height_error_is_fatal net p e d :
  In p choices ->
  answers net [] (height_request e) d ->
  truthy (dict_get d "error") = true ->
  main net (p, e) start =
  (Exit 1, {| stdout := [dict_get d "error"]; sent := [height_request e] |}).
Proof.
  intros Hp Hans Herr. rewrite (main_accepted _ _ _ _ Hp). unfold main_with.
  apply bind_exit. cbn [endpoint].
  apply (get_height_error net e start d Hans Herr).
Qed.

Lemma height_error_is_fatal_witness :
  main (two_replies [("error", rpc_error_payload)] []) ("camelotv3", rpc_url) start =
  (Exit 1, {| stdout := [rpc_error_payload]; sent := [height_request rpc_url] |}).
Proof.
  apply (height_error_is_fatal _ "camelotv3" rpc_url [("error", rpc_error_payload)]).
  - left. reflexivity.
  - exists (ok200 [("error", rpc_error_payload)]). repeat split.
  - reflexivity.
Defined.

(** C3.  What the code does on a missing height.  When the
    [eth_blockNumber] call is answered without error but with an empty or
    falsy [result], [get_height] does not fail: it prints ["no height
    found"] and returns [None].  [main] hands that [None] to [get_logs],
    and the run ends in the [TypeError] of [None - 2000], with no
    [eth_getLogs] call sent and ["ok"] never printed. *)
Theorem missing_height_ends_in_type_error net p e d :
  In p choices ->
  answers net [] (height_request e) d ->
  truthy (dict_get d "error") = false ->
  truthy (dict_get d "result") = false ->
  get_height net e start =
  (Value None,
   {| stdout := [VStr "no height found"]; sent := [height_request e] |}) /\
  (forall a w, get_logs net e None a w = (Raise TypeError, w)) /\
  main net (p, e) start =
  (Raise TypeError,
   {| stdout := [VStr "no height found"]; sent := [height_request e] |}) /\
  ~ In (VStr "ok") (stdout (snd (main net (p, e) start))).
Proof.
  intros Hp Hans Herr Hres.
  pose proof (get_height_missing net e start d Hans Herr Hres) as Hh.
  assert (Hrun : main net (p, e) start =
    (Raise TypeError,
     {| stdout := [VStr "no height found"]; sent := [height_request e] |})).
  { rewrite (main_accepted _ _ _ _ Hp). unfold main_with. cbn [endpoint provider].
    rewrite (bind_value _ _ _ _ _ Hh).
    rewrite (accepted_provider p Hp). reflexivity. }
  rewrite Hrun. repeat split.
  - exact Hh.
  - cbn. intros [H | []]. discriminate.
Qed.

Lemma missing_height_ends_in_type_error_witness :
  get_height (two_replies [("result", VNone)] []) rpc_url start =
  (Value None,
   {| stdout := [VStr "no height found"]; sent := [height_request rpc_url] |}) /\
  main (two_replies [("result", VNone)] []) ("camelotv3", rpc_url) start =
  (Raise TypeError,
   {| stdout := [VStr "no height found"]; sent := [height_request rpc_url] |}).
Proof.
  destruct (missing_height_ends_in_type_error
              (two_replies [("result", VNone)] []) "camelotv3" rpc_url
              [("result", VNone)]) as (Hh & _ & Hrun & _).
  - left. reflexivity.
  - exists (ok200 [("result", VNone)]). repeat split.
  - reflexivity.
  - reflexivity.
  - split; [exact Hh | exact Hrun].
Defined.

(** C6.  A provider that is not in the registry [ADDRESSES] is not among
    the [choices] of the command line either: [parse_args] rejects it with
    exit status 2 before anything is printed or sent. *)
Theorem unknown_provider_is_rejected net p e :
  lookup p ADDRESSES = None ->
  main net (p, e) start = (Exit 2, start).
Proof.
  intros H. unfold main, parse_args, bind.
  rewrite (unregistered_not_a_choice p H). reflexivity.
Qed.

Lemma unknown_provider_is_rejected_witness :
  main (two_replies [("result", VStr "0x1388")] [("result", VList [])])
    ("uniswapv3", rpc_url) start = (Exit 2, start).
Proof.
  apply unknown_provider_is_rejected. reflexivity.
Defined.

(** ** [get_logs] *)

Lemma get_logs_sent net e h a w :
  sent (snd (get_logs net e (Some h) a w)) = (sent w ++ [logs_request e h a])%list.
Proof. apply rpc_call_sent. Qed.

Lemma get_logs_stdout_sent net e h a w :
  sent (snd (get_logs net e (Some h) a w)) = (sent w ++ [logs_request e h a])%list /\
  (forall logs w', get_logs net e (Some h) a w = (Value logs, w') ->
     stdout w' = stdout w /\ sent w' = (sent w ++ [logs_request e h a])%list).
Proof.
  split; [apply get_logs_sent|].
  intros logs w' H. pose proof (get_logs_sent net e h a w) as Hs.
  rewrite H in Hs. split; [|exact Hs].
  unfold get_logs in H. rewrite rpc_call_cases in H. cbv zeta in H.
  destruct (net _ _) as [resp|]; [|discriminate].
  destruct (error_status resp); [discriminate|].
  destruct (body resp) as [[| | | | | |d]|]; try discriminate.
  destruct (truthy _); [discriminate|]. injection H as _ <-. reflexivity.
Qed.

(** [main_with] once the height has been decoded. *)
Lemma main_with_decoded net args d s h :
  answers net [] (height_request (endpoint args)) d ->
  truthy (dict_get d "error") = false ->
  dict_get d "result" = VStr s ->
  int_base0 s = Some h ->
  main_with net args start =
  (logs <- get_logs net (endpoint args) (Some h) (lookup (provider args) ADDRESSES) ;;
   when (is_None logs) (print (VStr "this shouldn't happen")) ;;
   print (VStr "ok"))
    {| stdout := address_warning (provider args);
       sent := [height_request (endpoint args)] |}.
Proof.
  intros Hans Herr Hres Hint. unfold main_with.
  rewrite (bind_value _ _ _ _ _
             (get_height_decoded net _ start d s h Hans Herr Hres Hint)).
  unfold address_warning, when.
  destruct (no_address (lookup (provider args) ADDRESSES)); reflexivity.
Qed.

(** C2.  The run of the missing-height path.  With a [null] height, and
    no [error] anywhere, the run prints ["no height found"] and then ends
    in a [TypeError]: it neither prints ["ok"] nor returns, unlike the
    path of the [null] logs. *)
Lemma missing_height_never_reaches_ok :
  let net := two_replies [("result", VNone)] [("result", VList [])] in
  let run := main net ("camelotv3", rpc_url) start in
  lookup "error" [("result", VNone)] = None /\
  stdout (snd run) = [VStr "no height found"] /\
  fst run = Raise TypeError /\
  ~ (In (VStr "ok") (stdout (snd run)) /\ fst run = Value tt).
Proof.
  cbv zeta. repeat split. intros [_ H]. discriminate H.
Qed.

(** C4.  Whatever height [h] the probe decodes, the second request it
    sends is the [eth_getLogs] call with [fromBlock = hex(h - 2000)],
    [toBlock = hex(h)], the address as only element of [address], and no
    topics; for [h = 5000] the window is ["0xbb8"] to ["0x1388"]. *)
Theorem logs_window_of_height net args d s h :
  answers net [] (height_request (endpoint args)) d ->
  truthy (dict_get d "error") = false ->
  dict_get d "result" = VStr s ->
  int_base0 s = Some h ->
  sent (snd (main_with net args start)) =
    [height_request (endpoint args);
     {| url := endpoint args;
        json := VDict
          [("jsonrpc", VStr "2.0");
           ("method", VStr "eth_getLogs");
           ("params", VList [VDict
              [("fromBlock", VStr (hex (h - 2000)));
               ("toBlock", VStr (hex h));
               ("address", VList [address_value (lookup (provider args) ADDRESSES)]);
               ("topics", VList [])]]);
           ("id", VInt 1)] |}] /\
  (h = 5000 -> hex (h - 2000) = "0xbb8" /\ hex h = "0x1388").
Proof.
  intros Hans Herr Hres Hint. split.
  - rewrite (main_with_decoded net args d s h Hans Herr Hres Hint).
    set (w := {| stdout := _; sent := _ |}).
    destruct (get_logs_stdout_sent net (endpoint args) h
                (lookup (provider args) ADDRESSES) w) as [Hsent Hval].
    unfold bind at 1.
    destruct (get_logs net (endpoint args) (Some h) _ w) as [[logs | c | x] w'] eqn:Hlogs;
      try exact Hsent.
    destruct (Hval logs w' eq_refl) as [_ Hs].
    unfold when. destruct (is_None logs); cbn; exact Hs.
  - intros ->. split; reflexivity.
Qed.

Lemma logs_window_of_height_witness :
  sent (snd (main_with (two_replies [("result", VStr "0x1388")] [("result", VList [])])
               {| provider := "camelotv3"; endpoint := rpc_url |} start)) =
    [height_request rpc_url;
     {| url := rpc_url;
        json := VDict
          [("jsonrpc", VStr "2.0");
           ("method", VStr "eth_getLogs");
           ("params", VList [VDict
              [("fromBlock", VStr "0xbb8");
               ("toBlock", VStr "0x1388");
               ("address", VList [VStr kujiweth]);
               ("topics", VList [])]]);
           ("id", VInt 1)] |}].
Proof.
  apply (logs_window_of_height
           (two_replies [("result", VStr "0x1388")] [("result", VList [])])
           {| provider := "camelotv3"; endpoint := rpc_url |}
           [("result", VStr "0x1388")] "0x1388" 5000).
  - exists (ok200 [("result", VStr "0x1388")]). repeat split.
  - reflexivity.
  - reflexivity.
  - reflexivity.
Defined.



(** C8.  With the height decoded, a logs call that is answered with a
    [null] result ends the run normally: it prints ["this shouldn't
    happen"] and then ["ok"].  A logs call that gets no response, or one
    with an error status, ends the run in an exception with nothing
    printed; and a result other than [null] prints ["ok"] alone. *)
Theorem null_logs_still_ok net p e d1 s h :
  let hr := height_request e in
  let lr := logs_request e h (lookup p ADDRESSES) in
  In p choices ->
  answers net [] hr d1 ->
  truthy (dict_get d1 "error") = false ->
  dict_get d1 "result" = VStr s ->
  int_base0 s = Some h ->
  (forall d2,
     answers net [hr] lr d2 ->
     truthy (dict_get d2 "error") = false ->
     main net (p, e) start =
     (Value tt,
      {| stdout := (logs_warning (dict_get d2 "result") ++ [VStr "ok"])%list;
         sent := [hr; lr] |}) /\
     (dict_get d2 "result" = VNone ->
      logs_warning (dict_get d2 "result") = [VStr "this shouldn't happen"]) /\
     (dict_get d2 "result" <> VNone ->
      logs_warning (dict_get d2 "result") = [])) /\
  (net [hr] lr = None ->
   main net (p, e) start =
   (Raise RequestException, {| stdout := []; sent := [hr; lr] |})) /\
  (forall resp,
     net [hr] lr = Some resp ->
     error_status resp = true ->
     main net (p, e) start =
     (Raise HTTPError, {| stdout := []; sent := [hr; lr] |})).
Proof.
  intros hr lr Hp Hans Herr Hres Hint.
  assert (Hw : address_warning p = []).
  { rewrite (accepted_provider p Hp). reflexivity. }
  assert (Hmain : main net (p, e) start =
    (logs <- get_logs net e (Some h) (lookup p ADDRESSES) ;;
     when (is_None logs) (print (VStr "this shouldn't happen")) ;;
     print (VStr "ok")) {| stdout := []; sent := [hr] |}).
  { rewrite (main_accepted _ _ _ _ Hp).
    rewrite (main_with_decoded net {| provider := p; endpoint := e |} d1 s h
               Hans Herr Hres Hint).
    cbn [provider endpoint]. rewrite Hw. reflexivity. }
  split; [|split].
  - intros d2 Hans2 Herr2. split; [|split].
    + rewrite Hmain. unfold get_logs.
      rewrite (bind_value _ _ _ _ _
                 (rpc_call_result net e "eth_getLogs" _
                    {| stdout := []; sent := [hr] |} d2 Hans2 Herr2)).
      unfold logs_warning, when, bind, print, ret.
      destruct (is_None (dict_get d2 "result")); reflexivity.
    + intros ->. reflexivity.
    + intros Hne. destruct (dict_get d2 "result"); try reflexivity.
      contradiction Hne. reflexivity.
  - intros Hnone. rewrite Hmain. apply bind_raise.
    unfold get_logs. rewrite rpc_call_cases. cbv zeta. cbn [sent stdout].
    fold (logs_request e h (lookup p ADDRESSES)). fold lr. fold hr.
    rewrite Hnone. reflexivity.
  - intros resp Hresp Hst. rewrite Hmain. apply bind_raise.
    unfold get_logs. rewrite rpc_call_cases. cbv zeta. cbn [sent stdout].
    fold (logs_request e h (lookup p ADDRESSES)). fold lr. fold hr.
    rewrite Hresp, Hst. reflexivity.
Qed.

Lemma null_logs_still_ok_witness :
  main (two_replies [("result", VStr "0x1388")] [("result", VNone)])
    ("camelotv3", rpc_url) start =
  (Value tt,
   {| stdout := [VStr "this shouldn't happen"; VStr "ok"];
      sent := [height_request rpc_url;
               logs_request rpc_url 5000 (Some kujiweth)] |}).
Proof.
  destruct (null_logs_still_ok
              (two_replies [("result", VStr "0x1388")] [("result", VNone)])
              "camelotv3" rpc_url [("result", VStr "0x1388")] "0x1388" 5000)
    as (Hnull & _ & _).
  - left. reflexivity.
  - exists (ok200 [("result", VStr "0x1388")]). repeat split.
  - reflexivity.
  - reflexivity.
  - reflexivity.
  - destruct (Hnull [("result", VNone)]) as (Hrun & _ & _).
    + exists (ok200 [("result", VNone)]). repeat split.
    + reflexivity.
    + exact Hrun.
Defined.

(** C9.  For an answered call, [rpc_call] exits (with status 1) exactly
    when the [error] of the response is truthy; when the response has an
    [error] member that is falsy, [rpc_call] prints nothing and returns
    the [result] member. *)
Theorem falsy_error_is_no_error net endpoint method params w d :
  let req := {| url := endpoint; json := rpc_data method params |} in
  answers net (sent w) req d ->
  (truthy (dict_get d "error") = true <->
   fst (rpc_call net endpoint method params w) = Exit 1) /\
  (forall c, fst (rpc_call net endpoint method params w) = Exit c ->
     truthy (dict_get d "error") = true) /\
  (forall err,
     lookup "error" d = Some err ->
     truthy err = false ->
     rpc_call net endpoint method params w =
     (Value (dict_get d "result"),
      {| stdout := stdout w; sent := (sent w ++ [req])%list |})).
Proof.
  intros req Hans.
  assert (Hexit : forall c, fst (rpc_call net endpoint method params w) = Exit c ->
                            truthy (dict_get d "error") = true).
  { intros c H. destruct (truthy (dict_get d "error")) eqn:Herr; [reflexivity|].
    rewrite (rpc_call_result net _ _ _ _ d Hans Herr) in H. discriminate H. }
  split; [split|split].
  - intros Herr. rewrite (rpc_call_error net _ _ _ _ d Hans Herr). reflexivity.
  - apply Hexit.
  - exact Hexit.
  - intros err Hl Herr. apply (rpc_call_result net _ _ _ _ d Hans).
    unfold dict_get. rewrite Hl. exact Herr.
Qed.

Lemma falsy_error_is_no_error_witness :
  Forall (fun err =>
    rpc_call (scripted [ok200 [("error", err); ("result", VStr "0x1388")]])
      rpc_url "eth_blockNumber" (VList []) start =
    (Value (VStr "0x1388"),
     {| stdout := []; sent := [height_request rpc_url] |}))
    [VNone; VInt 0; VStr ""; VDict []; VList []; VBool false;
     VFloat (S754_zero false)].
Proof.
  repeat (apply Forall_cons;
    [ match goal with
      | |- rpc_call (scripted [ok200 (("error", ?err) :: ?d)]) _ _ _ _ = _ =>
          destruct (falsy_error_is_no_error
                      (scripted [ok200 (("error", err) :: d)])
                      rpc_url "eth_blockNumber" (VList []) start
                      (("error", err) :: d)) as (_ & _ & H);
          [ exists (ok200 (("error", err) :: d)); repeat split
          | exact (H err eq_refl eq_refl) ]
      end
    | ]).
  apply Forall_nil.
Defined.

(** ** [hex] and [int(s, 0)] *)

Lemma string_app_assoc (a b c : string) : ((a ++ b) ++ c = a ++ (b ++ c))%string.
Proof. induction a as [|x a IH]; cbn; [reflexivity | rewrite IH; reflexivity]. Qed.

Lemma string_app_nil_r (a : string) : (a ++ "")%string = a.
Proof. induction a as [|x a IH]; cbn; [reflexivity | rewrite IH; reflexivity]. Qed.

Lemma small_cases d :
  0 <= d < 16 ->
  d = 0 \/ d = 1 \/ d = 2 \/ d = 3 \/ d = 4 \/ d = 5 \/ d = 6 \/ d = 7 \/
  d = 8 \/ d = 9 \/ d = 10 \/ d = 11 \/ d = 12 \/ d = 13 \/ d = 14 \/ d = 15.
Proof. lia. Qed.

(** The sixteen digit characters, read back. *)
Lemma hex_char_facts d :
  0 <= d < 16 ->
  digit_value (hex_char d) = d /\
  Ascii.eqb (hex_char d) "_" = false /\
  is_hex_lower (hex_char d) = true /\
  is_space (hex_char d) = false.
Proof.
  intros H. pose proof (small_cases d H) as C.
  repeat (destruct C as [-> | C]; [vm_compute; auto |]).
  subst. vm_compute. auto.
Qed.

Lemma is_hex_lower_facts c :
  is_hex_lower c = true ->
  0 <= digit_value c < 16 /\
  hex_char (digit_value c) = c /\
  (Ascii.eqb c "0" = false -> 0 < digit_value c).
Proof.
  destruct c as [[] [] [] [] [] [] [] []]; vm_compute; intros H;
    try discriminate H; repeat split; intros; congruence.
Qed.

Lemma scan_hex_char d rest prev any acc :
  0 <= d < 16 ->
  scan_digits 16 (String (hex_char d) rest) prev any acc =
  scan_digits 16 rest false true (acc * 16 + d).
Proof.
  intros H. destruct (hex_char_facts d H) as (Hv & Hu & _ & _).
  cbn [scan_digits]. rewrite Hu, Hv.
  destruct (Z.ltb_spec d 16); [reflexivity | lia].
Qed.

Lemma pow16_succ k : 0 <= k -> 16 ^ (k + 1) = 16 * 16 ^ k.
Proof. intros H. rewrite Z.pow_add_r by lia. lia. Qed.

(** Reading the digits that [hex_digits] writes. *)
Lemma scan_hex_digits fuel :
  forall n rest any acc,
    0 <= n < 16 ^ (Z.of_nat fuel + 1) ->
    exists k, 0 <= k /\
      scan_digits 16 (hex_digits fuel n rest) false any acc =
      scan_digits 16 rest false true (acc * 16 ^ k + n).
Proof.
  induction fuel as [|fuel IH]; intros n rest any acc Hn.
  - exists 1. split; [lia|]. cbn [hex_digits].
    change (16 ^ (Z.of_nat 0 + 1)) with 16 in Hn.
    rewrite Z.mod_small by lia. rewrite scan_hex_char by lia. reflexivity.
  - cbn [hex_digits]. destruct (Z.ltb_spec n 16) as [Hlt | Hge].
    + exists 1. split; [lia|].
      rewrite Z.mod_small by lia. rewrite scan_hex_char by lia. reflexivity.
    + assert (Hq : 0 <= n / 16 < 16 ^ (Z.of_nat fuel + 1)).
      { rewrite Nat2Z.inj_succ in Hn. unfold Z.succ in Hn.
        rewrite (pow16_succ (Z.of_nat fuel + 1)) in Hn by lia.
        split; [apply Z.div_pos; lia | apply Z.div_lt_upper_bound; lia]. }
      destruct (IH (n / 16) (String (hex_char (n mod 16)) rest) any acc Hq)
        as (k & Hk & Hscan).
      exists (k + 1). split; [lia|]. rewrite Hscan.
      rewrite scan_hex_char by (apply Z.mod_pos_bound; lia).
      rewrite (pow16_succ k Hk). f_equal.
      pose proof (Z.div_mod n 16 ltac:(lia)). lia.
Qed.

Lemma log2_fuel n : 0 <= n -> n < 16 ^ (Z.of_nat (Z.to_nat (Z.log2 n)) + 1).
Proof.
  intros Hn. rewrite Z2Nat.id by apply Z.log2_nonneg.
  destruct (Z.eq_dec n 0) as [-> | Hne]; [reflexivity|].
  pose proof (Z.log2_nonneg n) as Hl.
  destruct (Z.log2_spec n ltac:(lia)) as [_ Hup].
  unfold Z.succ in Hup.
  assert (2 ^ (Z.log2 n + 1) <= 16 ^ (Z.log2 n + 1))
    by (apply Z.pow_le_mono_l; lia).
  lia.
Qed.

(** The first character of the digits is a digit. *)
Lemma hex_digits_head fuel :
  forall n acc, exists c r,
    hex_digits fuel n acc = String c r /\ is_hex_lower c = true.
Proof.
  induction fuel as [|fuel IH]; intros n acc; cbn [hex_digits].
  - exists (hex_char (n mod 16)), acc. split; [reflexivity|].
    apply hex_char_facts. apply Z.mod_pos_bound. lia.
  - destruct (n <? 16).
    + exists (hex_char (n mod 16)), acc. split; [reflexivity|].
      apply hex_char_facts. apply Z.mod_pos_bound. lia.
    + apply IH.
Qed.

Lemma is_hex_lower_plain c :
  is_hex_lower c = true ->
  Ascii.eqb c "_" = false /\ is_space c = false /\
  Ascii.eqb c "+" = false /\ Ascii.eqb c "-" = false.
Proof.
  destruct c as [[] [] [] [] [] [] [] []]; vm_compute; intros H;
    try discriminate H; repeat split.
Qed.

(** Decoding the magnitude part after the prefix. *)
Lemma scan_hex_abs n :
  0 <= n ->
  exists c r,
    hex_abs n = String c r /\ is_hex_lower c = true /\
    scan_digits 16 (hex_abs n) false false 0 = Some (n, true, ""%string).
Proof.
  intros Hn. unfold hex_abs.
  destruct (hex_digits_head (Z.to_nat (Z.log2 n)) n "") as (c & r & Heq & Hc).
  exists c, r. split; [exact Heq|]. split; [exact Hc|].
  destruct (scan_hex_digits (Z.to_nat (Z.log2 n)) n "" false 0) as (k & _ & Hscan).
  - split; [lia | apply log2_fuel; lia].
  - rewrite Hscan. cbn. reflexivity.
Qed.

(** [int(hex(n), 0) == n], for every integer. *)
Lemma int_base0_hex n : int_base0 (hex n) = Some n.
Proof.
  assert (Hpre : forall m, 0 <= m ->
            int_base0 ("0x" ++ hex_abs m) = Some m /\
            int_base0 ("-0x" ++ hex_abs m) = Some (- m)).
  { intros m Hm. destruct (scan_hex_abs m Hm) as (c & r & Heq & Hc & Hscan).
    destruct (is_hex_lower_plain c Hc) as (Hu & _ & _ & _).
    unfold int_base0. cbn. rewrite Heq in *. cbn. rewrite Hu.
    rewrite Hscan. cbn. rewrite Hu. split; f_equal; destruct m; reflexivity. }
  unfold hex. destruct (Z.ltb_spec n 0) as [Hneg | Hpos].
  - destruct (Hpre (Z.abs n) ltac:(lia)) as [_ H].
    cbn [append]. cbn [append] in H. rewrite H. f_equal. lia.
  - destruct (Hpre (Z.abs n) ltac:(lia)) as [H _].
    cbn [append]. cbn [append] in H. rewrite H. f_equal. lia.
Qed.

(** *** Canonical literals are the results of [hex] *)

Lemma hex_digits_acc fuel :
  forall n acc, hex_digits fuel n acc = (hex_digits fuel n "" ++ acc)%string.
Proof.
  induction fuel as [|fuel IH]; intros n acc; cbn [hex_digits].
  - reflexivity.
  - destruct (n <? 16); [reflexivity|].
    rewrite (IH _ (String _ acc)), (IH _ (String _ "")).
    rewrite string_app_assoc. reflexivity.
Qed.

(** Fuel beyond the number of digits changes nothing. *)
Lemma hex_digits_fuel f1 :
  forall f2 n,
    0 <= n < 16 ^ (Z.of_nat f1 + 1) ->
    n < 16 ^ (Z.of_nat f2 + 1) ->
    hex_digits f1 n "" = hex_digits f2 n "".
Proof.
  induction f1 as [|f1 IH]; intros f2 n H1 H2.
  - change (16 ^ (Z.of_nat 0 + 1)) with 16 in H1.
    destruct f2; cbn [hex_digits]; [reflexivity|].
    destruct (Z.ltb_spec n 16); [reflexivity | lia].
  - cbn [hex_digits]. destruct (Z.ltb_spec n 16) as [Hlt | Hge].
    + destruct f2; cbn [hex_digits]; [reflexivity|].
      destruct (Z.ltb_spec n 16); [reflexivity | lia].
    + destruct f2 as [|f2].
      { change (16 ^ (Z.of_nat 0 + 1)) with 16 in H2. lia. }
      cbn [hex_digits]. destruct (Z.ltb_spec n 16); [lia|].
      rewrite (hex_digits_acc f1), (hex_digits_acc f2). f_equal.
      rewrite Nat2Z.inj_succ in H1, H2. unfold Z.succ in H1, H2.
      rewrite (pow16_succ (Z.of_nat f1 + 1)) in H1 by lia.
      rewrite (pow16_succ (Z.of_nat f2 + 1)) in H2 by lia.
      apply IH.
      * split; [apply Z.div_pos; lia | apply Z.div_lt_upper_bound; lia].
      * apply Z.div_lt_upper_bound; lia.
Qed.

Lemma hex_abs_fuel f n :
  0 <= n < 16 ^ (Z.of_nat f + 1) -> hex_digits f n "" = hex_abs n.
Proof.
  intros H. unfold hex_abs. apply hex_digits_fuel; [exact H|].
  apply log2_fuel. lia.
Qed.

Lemma hex_abs_small d : 0 <= d < 16 -> hex_abs d = String (hex_char d) "".
Proof.
  intros H. rewrite <- (hex_abs_fuel 0) by (change (16 ^ (Z.of_nat 0 + 1)) with 16; lia).
  cbn [hex_digits]. rewrite Z.mod_small by lia. reflexivity.
Qed.

(** One more digit at the end. *)
Lemma hex_abs_snoc q d :
  0 < q -> 0 <= d < 16 ->
  hex_abs (q * 16 + d) = (hex_abs q ++ String (hex_char d) "")%string.
Proof.
  intros Hq Hd. set (f := Z.to_nat (Z.log2 q)).
  pose proof (log2_fuel q ltac:(lia)) as Hf. fold f in Hf.
  rewrite <- (hex_abs_fuel (S f)).
  - cbn [hex_digits]. destruct (Z.ltb_spec (q * 16 + d) 16); [lia|].
    rewrite hex_digits_acc.
    replace ((q * 16 + d) / 16) with q
      by (apply Z.div_unique with d; lia).
    replace ((q * 16 + d) mod 16) with d
      by (apply Z.mod_unique with q; lia).
    reflexivity.
  - rewrite Nat2Z.inj_succ. unfold Z.succ.
    rewrite (pow16_succ (Z.of_nat f + 1)) by lia. lia.
Qed.

Lemma hex_abs_extend ds :
  forall acc,
    all_hex_lower ds = true -> 0 < acc ->
    exists h, 0 < h /\ hex_abs h = (hex_abs acc ++ ds)%string.
Proof.
  induction ds as [|c r IH]; intros acc Hall Hacc.
  - exists acc. rewrite string_app_nil_r. split; [exact Hacc | reflexivity].
  - cbn [all_hex_lower] in Hall. apply andb_prop in Hall as [Hc Hr].
    destruct (is_hex_lower_facts c Hc) as (Hd & Hback & _).
    destruct (IH (acc * 16 + digit_value c) Hr ltac:(lia)) as (h & Hh & Heq).
    exists h. split; [exact Hh|]. rewrite Heq.
    rewrite hex_abs_snoc by lia. rewrite Hback, string_app_assoc. reflexivity.
Qed.

Lemma canonical_digits_hex_abs ds :
  canonical_digits ds = true -> exists h, 0 <= h /\ hex_abs h = ds.
Proof.
  destruct ds as [|c r]; [discriminate|].
  unfold canonical_digits. cbn [all_hex_lower]. intros H.
  apply andb_prop in H as [Hall Hlead]. apply andb_prop in Hall as [Hc Hr].
  destruct (is_hex_lower_facts c Hc) as (Hd & Hback & Hnz).
  apply orb_prop in Hlead as [Hlead | Hlead].
  - apply negb_true_iff in Hlead.
    destruct (hex_abs_extend r (digit_value c) Hr (Hnz Hlead)) as (h & Hh & Heq).
    exists h. split; [lia|]. rewrite Heq, hex_abs_small, Hback by lia. reflexivity.
  - apply String.eqb_eq in Hlead. subst r. exists (digit_value c).
    split; [lia|]. rewrite hex_abs_small, Hback by lia. reflexivity.
Qed.

Lemma canonical_hex_is_hex s :
  canonical_hex s = true -> exists h, 0 <= h /\ hex h = s.
Proof.
  destruct s as [|c0 [|c1 ds]]; try discriminate. cbn [canonical_hex]. intros H.
  apply andb_prop in H as [H Hds]. apply andb_prop in H as [H0 H1].
  apply Ascii.eqb_eq in H0, H1. subst c0 c1.
  destruct (canonical_digits_hex_abs ds Hds) as (h & Hh & Heq).
  exists h. split; [exact Hh|]. unfold hex.
  destruct (Z.ltb_spec h 0); [lia|]. rewrite Z.abs_eq by lia. rewrite Heq. reflexivity.
Qed.

(** C7 (counterexample).  Literals that [int(s, 0)] accepts as
    non-negative heights and [hex] does not give back: upper-case digits,
    a leading zero, an upper-case prefix, a decimal literal. *)
Lemma round_trip_fails_off_canon :
  Forall (fun s => exists h,
            int_base0 s = Some h /\ 0 <= h /\ hex h <> s)
    ["0x3E8"; "0x03e8"; "0X3e8"; "1000"; " 0x3e8"; "0x3_e8"].
Proof.
  repeat constructor; exists 1000; repeat split; vm_compute; congruence.
Qed.

(** C7 (amended).  A canonical block height, ["0x"] and lower-case
    hexadecimal digits without leading zero, decodes to a non-negative
    integer whose [hex] is the string itself. *)
Theorem canonical_round_trip s :
  canonical_hex s = true ->
  exists h, int_base0 s = Some h /\ 0 <= h /\ hex h = s.
Proof.
  intros H. destruct (canonical_hex_is_hex s H) as (h & Hh & Heq).
  exists h. split; [|split; assumption].
  rewrite <- Heq. apply int_base0_hex.
Qed.

Lemma canonical_round_trip_witness :
  exists h, int_base0 "0x1388" = Some h /\ 0 <= h /\ hex h = "0x1388".
Proof.
  apply canonical_round_trip. reflexivity.
Defined.

(** Every result of [hex] on a non-negative integer is canonical. *)
Lemma hex_is_canonical n : 0 <= n -> canonical_hex (hex n) = true.
Proof.
  intros Hn. unfold hex. destruct (Z.ltb_spec n 0); [lia|].
  rewrite Z.abs_eq by lia. cbn [append canonical_hex Ascii.eqb Bool.eqb andb].
  clear H. revert n Hn.
  enough (G : forall m, 0 <= m -> 0 <= m -> canonical_digits (hex_abs m) = true)
    by (intros n Hn; apply G; exact Hn).
  apply (Z_lt_induction (fun m => 0 <= m -> canonical_digits (hex_abs m) = true)).
  intros m IH Hm.
  destruct (Z.ltb_spec m 16) as [Hlt | Hge].
  - rewrite hex_abs_small by lia. unfold canonical_digits. cbn [all_hex_lower].
    destruct (hex_char_facts m ltac:(lia)) as (_ & _ & Hl & _).
    rewrite Hl, String.eqb_refl, orb_true_r. reflexivity.
  - pose proof (Z.div_mod m 16 ltac:(lia)) as Hdm.
    pose proof (Z.mod_pos_bound m 16 ltac:(lia)) as Hmod.
    assert (Hq : 0 < m / 16) by (apply Z.div_str_pos; lia).
    replace m with (m / 16 * 16 + m mod 16) by lia.
    rewrite hex_abs_snoc by lia.
    specialize (IH (m / 16) ltac:(lia) ltac:(lia)).
    destruct (hex_abs (m / 16)) as [|c r] eqn:Heq; [discriminate IH|].
    unfold canonical_digits in *. cbn [append all_hex_lower] in *.
    apply andb_prop in IH as [Hall Hlead]. apply andb_prop in Hall as [Hc Hr].
    destruct (hex_char_facts (m mod 16) Hmod) as (_ & _ & Hl & _).
    assert (Hr' : all_hex_lower (r ++ String (hex_char (m mod 16)) "") = true).
    { clear -Hr Hl. induction r as [|x r IHr]; cbn [append all_hex_lower] in *.
      - rewrite Hl. reflexivity.
      - apply andb_prop in Hr as [Hx Hr]. rewrite Hx, (IHr Hr). reflexivity. }
    rewrite Hc, Hr'. cbn [andb].
    apply orb_prop in Hlead as [Hlead | Hlead]; [rewrite Hlead; reflexivity|].
    apply String.eqb_eq in Hlead. subst r.
    destruct (is_hex_lower_facts c Hc) as (Hd & Hback & _).
    destruct (Ascii.eqb c "0") eqn:Hz; [|reflexivity].
    apply Ascii.eqb_eq in Hz. subst c.
    destruct (scan_hex_abs (m / 16) ltac:(lia)) as (_ & _ & _ & _ & Hscan).
    rewrite Heq in Hscan. cbn in Hscan. injection Hscan as Hzero. lia.
Qed.

(** ** The pair mapping *)

Lemma dict_set_In {A : Type} (k : string) (v : A) d k' v' :
  In (k', v') (dict_set k v d) -> (k' = k /\ v' = v) \/ In (k', v') d.
Proof.
  induction d as [|[k0 v0] d IH]; cbn [dict_set].
  - intros [H | []]. injection H as <- <-. left. split; reflexivity.
  - destruct (String.eqb_spec k k0) as [-> | Hne].
    + intros [H | H].
      * injection H as <- <-. left. split; reflexivity.
      * right. right. exact H.
    + intros [H | H].
      * right. left. exact H.
      * destruct (IH H) as [Hnew | Hold]; [left; exact Hnew | right; right; exact Hold].
Qed.

Lemma visit_no_identity mapping item mapping' :
  no_identity mapping ->
  MapKrakenPairs.visit mapping item = inr mapping' ->
  no_identity mapping'.
Proof.
  intros Hinv. destruct item as [symbol info]. unfold MapKrakenPairs.visit.
  destruct (MapKrakenPairs.wsname_of info) as [e | wsname]; [discriminate|].
  destruct (MapKrakenPairs.base_quote wsname) as [e | [base quote]]; [discriminate|].
  destruct (String.eqb_spec (base ++ quote) symbol) as [Heq | Hne]; cbn [negb].
  - intros H. injection H as <-. exact Hinv.
  - intros H. injection H as <-. intros k v Hin.
    destruct (dict_set_In _ _ _ _ _ Hin) as [[-> ->] | Hold].
    + exact Hne.
    + apply Hinv. exact Hold.
Qed.

Lemma visit_all_no_identity items :
  forall mapping mapping',
    no_identity mapping ->
    MapKrakenPairs.visit_all items mapping = inr mapping' ->
    no_identity mapping'.
Proof.
  induction items as [|item items IH]; intros mapping mapping' Hinv; cbn [MapKrakenPairs.visit_all].
  - intros H. injection H as <-. exact Hinv.
  - destruct (MapKrakenPairs.visit mapping item) as [e | m1] eqn:Hv; [discriminate|].
    apply IH. apply (visit_no_identity mapping item m1 Hinv Hv).
Qed.

(** The loop does not raise on entries that have a [wsname] with one
    slash. *)
Lemma visit_all_total items :
  forall mapping,
    forallb wsname_ok items = true ->
    exists mapping', MapKrakenPairs.visit_all items mapping = inr mapping'.
Proof.
  induction items as [|[symbol info] items IH]; intros mapping Hok;
    cbn [MapKrakenPairs.visit_all forallb] in *.
  - exists mapping. reflexivity.
  - apply andb_prop in Hok as [Hitem Hrest].
    unfold wsname_ok in Hitem. cbn [snd] in Hitem.
    destruct info as [| | | | | |d]; try discriminate Hitem.
    unfold MapKrakenPairs.visit, MapKrakenPairs.wsname_of.
    destruct (lookup "wsname" d) as [[| | | |ws| |]|]; try discriminate Hitem.
    unfold MapKrakenPairs.base_quote.
    destruct (split "/" ws) as [|b [|q [|x l]]]; try discriminate Hitem.
    destruct (negb (String.eqb (b ++ q) symbol)); apply IH; exact Hrest.
Qed.

(** C10.  In the mapping that the script prints no key equals its value:
    a pair whose base and quote concatenate to its Kraken symbol is not
    entered, and a later pair only overwrites an entry with a symbol that
    differs from the key as well. *)
Theorem mapping_has_no_identity_entry reply mapping :
  MapKrakenPairs.main reply = MapKrakenPairs.Printed mapping ->
  (forall k v, In (k, v) mapping -> k <> v) /\
  (forall k v, lookup k mapping = Some v -> k <> v).
Proof.
  intros Hmain.
  assert (Hinv : no_identity mapping).
  { unfold MapKrakenPairs.main in Hmain.
    destruct reply as [resp|]; [|discriminate].
    destruct (negb (status_code resp =? 200)); [discriminate|].
    destruct (body resp) as [data|]; [|discriminate].
    destruct (MapKrakenPairs.get_result data) as [e | [| | | | | |pairs]];
      try discriminate.
    destruct (MapKrakenPairs.visit_all pairs []) as [e | m] eqn:Hv; [discriminate|].
    injection Hmain as <-.
    apply (visit_all_no_identity pairs [] m); [|exact Hv].
    intros k v []. }
  split; [exact Hinv|].
  intros k v Hl. apply Hinv.
  clear -Hl. induction mapping as [|[k0 v0] m IH]; cbn [lookup] in Hl; [discriminate|].
  destruct (String.eqb_spec k k0) as [-> | Hne].
  - injection Hl as <-. left. reflexivity.
  - right. apply IH. exact Hl.
Qed.

Lemma mapping_has_no_identity_entry_witness :
  MapKrakenPairs.main (Some asset_pairs_reply) =
    MapKrakenPairs.Printed [("XBTUSD", "XXBTZUSD"); ("ETHEUR", "XETHZEUR")] /\
  "XBTUSD" <> "XXBTZUSD" /\ "ETHEUR" <> "XETHZEUR".
Proof.
  split; [reflexivity|].
  destruct (mapping_has_no_identity_entry (Some asset_pairs_reply)
              [("XBTUSD", "XXBTZUSD"); ("ETHEUR", "XETHZEUR")] eq_refl) as [H _].
  split; apply H; [left | right; left]; reflexivity.
Defined.

(** A well-formed reply makes the script print a mapping. *)
Lemma main_prints_on_well_formed_reply resp d pairs :
  status_code resp = 200 ->
  body resp = Some (VDict d) ->
  lookup "result" d = Some (VDict pairs) ->
  forallb wsname_ok pairs = true ->
  exists mapping, MapKrakenPairs.main (Some resp) = MapKrakenPairs.Printed mapping.
Proof.
  intros Hst Hbody Hres Hok. unfold MapKrakenPairs.main.
  rewrite Hst, Hbody. cbn. rewrite Hres.
  destruct (visit_all_total pairs [] Hok) as (m & Hm). rewrite Hm.
  exists m. reflexivity.
Qed.

(** * Further properties of the probe *)

(** ** What a call of [rpc_call] leaves behind *)

Lemma rpc_call_value_inv net endpoint method params w v w' :
  rpc_call net endpoint method params w = (Value v, w') ->
  exists d,
    answers net (sent w) {| url := endpoint; json := rpc_data method params |} d /\
    truthy (dict_get d "error") = false /\
    v = dict_get d "result" /\
    w' = {| stdout := stdout w;
            sent := (sent w ++ [{| url := endpoint; json := rpc_data method params |}])%list |}.
Proof.
  rewrite rpc_call_cases. cbv zeta.
  destruct (net _ _) as [resp|] eqn:Hnet; [|discriminate].
  destruct (error_status resp) eqn:Hst; [discriminate|].
  destruct (body resp) as [[| | | | | |d]|] eqn:Hbody; try discriminate.
  destruct (truthy _) eqn:Herr; [discriminate|].
  intros H. injection H as <- <-. exists d. repeat split; try assumption.
  exists resp. repeat split; assumption.
Qed.

Lemma rpc_call_exit_inv net endpoint method params w c w' :
  rpc_call net endpoint method params w = (Exit c, w') ->
  exists d,
    answers net (sent w) {| url := endpoint; json := rpc_data method params |} d /\
    truthy (dict_get d "error") = true /\
    c = 1 /\
    w' = {| stdout := (stdout w ++ [dict_get d "error"])%list;
            sent := (sent w ++ [{| url := endpoint; json := rpc_data method params |}])%list |}.
Proof.
  rewrite rpc_call_cases. cbv zeta.
  destruct (net _ _) as [resp|] eqn:Hnet; [|discriminate].
  destruct (error_status resp) eqn:Hst; [discriminate|].
  destruct (body resp) as [[| | | | | |d]|] eqn:Hbody; try discriminate.
  destruct (truthy _) eqn:Herr; [|discriminate].
  intros H. injection H as <- <-. exists d. repeat split; try assumption.
  exists resp. repeat split; assumption.
Qed.

Lemma rpc_call_raise_inv net endpoint method params w x w' :
  rpc_call net endpoint method params w = (Raise x, w') ->
  (forall d, ~ answers net (sent w)
                 {| url := endpoint; json := rpc_data method params |} d) /\
  (x = RequestException \/ x = HTTPError \/ x = JSONDecodeError \/ x = AttributeError) /\
  w' = {| stdout := stdout w;
          sent := (sent w ++ [{| url := endpoint; json := rpc_data method params |}])%list |}.
Proof.
  rewrite rpc_call_cases. cbv zeta.
  destruct (net _ _) as [resp|] eqn:Hnet.
  - destruct (error_status resp) eqn:Hst.
    + intros H. injection H as <- <-. repeat split; auto.
      intros d (r & Hr & Hs & _). congruence.
    + destruct (body resp) as [[| | | | | |d]|] eqn:Hbody;
        try (intros H; injection H as <- <-; repeat split; auto;
             intros d' (r & Hr & _ & Hb); congruence).
      destruct (truthy _); discriminate.
  - intros H. injection H as <- <-. repeat split; auto.
    intros d (r & Hr & _). congruence.
Qed.

(** X1.  Whatever comes back, [rpc_call] sends exactly one request: to
    the endpoint it was given, with the envelope [jsonrpc = "2.0"], the
    method, the parameters and [id = 1].  It prints only when it exits,
    and it exits with no other status than 1. *)
Theorem rpc_call_footprint net endpoint method params w :
  let run := rpc_call net endpoint method params w in
  sent (snd run) =
    (sent w ++
     [{| url := endpoint;
         json := VDict [("jsonrpc", VStr "2.0"); ("method", VStr method);
                        ("params", params); ("id", VInt 1)] |}])%list /\
  (forall c, fst run = Exit c -> c = 1) /\
  ((forall c, fst run <> Exit c) -> stdout (snd run) = stdout w).
Proof.
  cbv zeta. split; [apply rpc_call_sent|].
  destruct (rpc_call net endpoint method params w) as [[v | c | x] w'] eqn:Hrun; cbn [fst snd].
  - apply rpc_call_value_inv in Hrun as (d & _ & _ & _ & ->).
    split; [discriminate | reflexivity].
  - apply rpc_call_exit_inv in Hrun as (d & _ & _ & -> & _).
    split; [intros c H; injection H as <-; reflexivity|].
    intros H. contradiction (H 1). reflexivity.
  - apply rpc_call_raise_inv in Hrun as (_ & _ & ->).
    split; [discriminate | reflexivity].
Qed.

(** X2.  The status of the response is tested before its body is read:
    with a 4xx or 5xx status [rpc_call] raises [HTTPError] whatever the
    body holds, so an [error] payload delivered with such a status is
    neither printed nor turned into the exit with status 1. *)
Theorem error_status_hides_payload net endpoint method params w resp :
  net (sent w) {| url := endpoint; json := rpc_data method params |} = Some resp ->
  400 <= status_code resp < 600 ->
  rpc_call net endpoint method params w =
  (Raise HTTPError,
   {| stdout := stdout w;
      sent := (sent w ++ [{| url := endpoint; json := rpc_data method params |}])%list |}).
Proof.
  intros Hnet Hst. rewrite rpc_call_cases. cbv zeta. rewrite Hnet.
  unfold error_status.
  destruct (Z.leb_spec 400 (status_code resp)); [|lia].
  destruct (Z.ltb_spec (status_code resp) 600); [|lia].
  reflexivity.
Qed.

Lemma error_status_hides_payload_witness :
  rpc_call
    (scripted [{| status_code := 429;
                  body := Some (VDict [("error", rpc_error_payload)]) |}])
    rpc_url "eth_blockNumber" (VList []) start =
  (Raise HTTPError, {| stdout := []; sent := [height_request rpc_url] |}).
Proof.
  apply (error_status_hides_payload _ rpc_url "eth_blockNumber" (VList []) start
           {| status_code := 429;
              body := Some (VDict [("error", rpc_error_payload)]) |}).
  - reflexivity.
  - cbn. lia.
Defined.

(** ** Every way [get_height] and [main] can go *)

Lemma get_height_cases net e w :
  let w1 := {| stdout := stdout w; sent := (sent w ++ [height_request e])%list |} in
  (exists d s h,
     answers net (sent w) (height_request e) d /\
     truthy (dict_get d "error") = false /\
     dict_get d "result" = VStr s /\ int_base0 s = Some h /\
     get_height net e w = (Value (Some h), w1)) \/
  (exists d,
     answers net (sent w) (height_request e) d /\
     truthy (dict_get d "error") = false /\
     truthy (dict_get d "result") = false /\
     get_height net e w =
       (Value None,
        {| stdout := (stdout w ++ [VStr "no height found"])%list;
           sent := (sent w ++ [height_request e])%list |})) \/
  (exists d,
     answers net (sent w) (height_request e) d /\
     truthy (dict_get d "error") = true /\
     get_height net e w =
       (Exit 1,
        {| stdout := (stdout w ++ [dict_get d "error"])%list;
           sent := (sent w ++ [height_request e])%list |})) \/
  (exists d,
     answers net (sent w) (height_request e) d /\
     truthy (dict_get d "error") = false /\
     truthy (dict_get d "result") = true /\
     ((forall s, dict_get d "result" <> VStr s) /\
      get_height net e w = (Raise TypeError, w1) \/
      (exists s, dict_get d "result" = VStr s /\ int_base0 s = None /\
                 get_height net e w = (Raise ValueError, w1)))) \/
  (exists x,
     (forall d, ~ answers net (sent w) (height_request e) d) /\
     (x = RequestException \/ x = HTTPError \/ x = JSONDecodeError \/ x = AttributeError) /\
     get_height net e w = (Raise x, w1)).
Proof.
  cbv zeta. unfold get_height.
  destruct (rpc_call net e "eth_blockNumber" (VList []) w) as [[v | c | x] w'] eqn:Hcall.
  - pose proof Hcall as Hinv.
    apply rpc_call_value_inv in Hinv as (d & Hans & Herr & -> & ->).
    rewrite (bind_value _ _ _ _ _ Hcall).
    destruct (truthy (dict_get d "result")) eqn:Hres; cbn [negb].
    + destruct (dict_get d "result") as [| | | |s| |] eqn:Hv;
        try (right; right; right; left; exists d; rewrite Hv;
             repeat split; try assumption;
             left; split; [intros s; discriminate | reflexivity]).
      destruct (int_base0 s) as [h|] eqn:Hint.
      * left. exists d, s, h. repeat split; try assumption.
        unfold bind. cbn. rewrite Hint. reflexivity.
      * right. right. right. left. exists d. rewrite Hv.
        repeat split; try assumption.
        right. exists s. repeat split; try assumption.
        unfold bind. cbn. rewrite Hint. reflexivity.
    + right. left. exists d. repeat split; assumption.
  - pose proof Hcall as Hinv.
    apply rpc_call_exit_inv in Hinv as (d & Hans & Herr & -> & ->).
    right. right. left. exists d. repeat split; try assumption.
    apply bind_exit. exact Hcall.
  - pose proof Hcall as Hinv.
    apply rpc_call_raise_inv in Hinv as (Hno & Hx & ->).
    right. right. right. right. exists x. repeat split; try assumption.
    apply bind_raise. exact Hcall.
Qed.

Lemma main_known net p e :
  In p choices ->
  main net (p, e) start =
  (height <- get_height net e ;;
   logs <- get_logs net e height (Some kujiweth) ;;
   when (is_None logs) (print (VStr "this shouldn't happen")) ;;
   print (VStr "ok")) start.
Proof.
  intros Hp. rewrite (main_accepted _ _ _ _ Hp), (accepted_provider p Hp).
  unfold main_with, bind. cbn [endpoint provider].
  destruct (get_height net e start) as [[v | c | x] w]; reflexivity.
Qed.

Lemma main_rejected net p e :
  ~ In p choices -> main net (p, e) start = (Exit 2, start).
Proof.
  intros Hp. unfold main, parse_args, bind. cbn [existsb choices].
  destruct (String.eqb_spec p "camelotv3") as [-> | Hne]; [|reflexivity].
  contradiction Hp. left. reflexivity.
Qed.

Lemma choice_dec p : In p choices \/ ~ In p choices.
Proof.
  destruct (String.eqb_spec p "camelotv3") as [-> | Hne].
  - left. left. reflexivity.
  - right. intros [H | []]. congruence.
Qed.

(** The rest of [main] once the height is [h]. *)
Lemma logs_tail_cases net e h :
  let hr := height_request e in
  let lr := logs_request e h (Some kujiweth) in
  let tail :=
    (logs <- get_logs net e (Some h) (Some kujiweth) ;;
     when (is_None logs) (print (VStr "this shouldn't happen")) ;;
     print (VStr "ok")) {| stdout := []; sent := [hr] |} in
  (exists d,
     answers net [hr] lr d /\ truthy (dict_get d "error") = false /\
     tail = (Value tt,
             {| stdout := (logs_warning (dict_get d "result") ++ [VStr "ok"])%list;
                sent := [hr; lr] |})) \/
  (exists d,
     answers net [hr] lr d /\ truthy (dict_get d "error") = true /\
     tail = (Exit 1, {| stdout := [dict_get d "error"]; sent := [hr; lr] |})) \/
  (exists x,
     (forall d, ~ answers net [hr] lr d) /\
     (x = RequestException \/ x = HTTPError \/ x = JSONDecodeError \/ x = AttributeError) /\
     tail = (Raise x, {| stdout := []; sent := [hr; lr] |})).
Proof.
  cbv zeta. set (w1 := {| stdout := []; sent := [height_request e] |}).
  unfold get_logs.
  destruct (rpc_call net e "eth_getLogs"
              (VList [logs_params h (Some kujiweth)]) w1) as [[v | c | x] w'] eqn:Hcall.
  - pose proof Hcall as Hinv.
    apply rpc_call_value_inv in Hinv as (d & Hans & Herr & -> & ->).
    left. exists d. repeat split; try assumption.
    rewrite (bind_value _ _ _ _ _ Hcall).
    unfold logs_warning, when, bind, print, ret.
    destruct (is_None (dict_get d "result")); reflexivity.
  - pose proof Hcall as Hinv.
    apply rpc_call_exit_inv in Hinv as (d & Hans & Herr & -> & ->).
    right. left. exists d. repeat split; try assumption.
    apply bind_exit. exact Hcall.
  - pose proof Hcall as Hinv.
    apply rpc_call_raise_inv in Hinv as (Hno & Hx & ->).
    right. right. exists x. repeat split; try assumption.
    apply bind_raise. exact Hcall.
Qed.

Lemma main_with_known net args :
  In (provider args) choices ->
  main_with net args start =
  (height <- get_height net (endpoint args) ;;
   logs <- get_logs net (endpoint args) height (Some kujiweth) ;;
   when (is_None logs) (print (VStr "this shouldn't happen")) ;;
   print (VStr "ok")) start.
Proof.
  intros Hp. destruct args as [p e]. cbn [provider endpoint] in *.
  rewrite <- (main_accepted net p e start Hp). apply main_known. exact Hp.
Qed.

(** X3.  Once [parse_args] has returned its [args], the run sends the
    [eth_blockNumber] call and after it at most one [eth_getLogs] call,
    both to [args.endpoint] and nothing else.  The second call is sent
    only for a height decoded from the answer to the first, and it always
    carries the registered address. *)
Theorem probe_sends_at_most_two net args :
  In (provider args) choices ->
  let s := sent (snd (main_with net args start)) in
  s = [height_request (endpoint args)] \/
  exists d str h,
    answers net [] (height_request (endpoint args)) d /\
    dict_get d "result" = VStr str /\ int_base0 str = Some h /\
    s = [height_request (endpoint args);
         logs_request (endpoint args) h (Some kujiweth)].
Proof.
  intros Hp. cbv zeta. rewrite (main_with_known _ _ Hp).
  set (e := endpoint args).
  destruct (get_height_cases net e start)
    as [(d & str & h & Hans & Herr & Hres & Hint & Hh)
       | [(d & _ & _ & _ & Hh)
       | [(d & _ & _ & Hh)
       | [(d & _ & _ & _ & [[_ Hh] | (str & _ & _ & Hh)])
       | (x & _ & _ & Hh)]]]];
    try (left;
         first [ rewrite (bind_raise _ _ _ _ _ Hh)
               | rewrite (bind_exit _ _ _ _ _ Hh)
               | rewrite (bind_value _ _ _ _ _ Hh) ]; reflexivity).
  right. exists d, str, h. repeat split; try assumption.
  rewrite (bind_value _ _ _ _ _ Hh). cbn [stdout sent app start].
  destruct (logs_tail_cases net e h)
    as [(d2 & _ & _ & Ht) | [(d2 & _ & _ & Ht) | (x & _ & _ & Ht)]];
    rewrite Ht; reflexivity.
Qed.

Lemma probe_sends_at_most_two_witness :
  let net := two_replies [("result", VStr "0x1388")] [("result", VList [])] in
  let args := {| provider := "camelotv3"; endpoint := rpc_url |} in
  let s := sent (snd (main_with net args start)) in
  s = [height_request rpc_url] \/
  exists d str h,
    answers net [] (height_request rpc_url) d /\
    dict_get d "result" = VStr str /\ int_base0 str = Some h /\
    s = [height_request rpc_url; logs_request rpc_url h (Some kujiweth)].
Proof.
  cbv zeta.
  apply (probe_sends_at_most_two
           (two_replies [("result", VStr "0x1388")] [("result", VList [])])
           {| provider := "camelotv3"; endpoint := rpc_url |}).
  left. reflexivity.
Defined.

(** X4.  A run that returns has printed ["ok"] last, and then both calls
    were answered without error status and without truthy [error], and the
    first answer held a string that decodes to the height of the window. *)
Theorem ok_means_both_calls_answered net p e :
  fst (main net (p, e) start) = Value tt ->
  In p choices /\
  exists d1 str h d2,
    answers net [] (height_request e) d1 /\
    truthy (dict_get d1 "error") = false /\
    dict_get d1 "result" = VStr str /\ int_base0 str = Some h /\
    answers net [height_request e] (logs_request e h (Some kujiweth)) d2 /\
    truthy (dict_get d2 "error") = false /\
    snd (main net (p, e) start) =
      {| stdout := (logs_warning (dict_get d2 "result") ++ [VStr "ok"])%list;
         sent := [height_request e; logs_request e h (Some kujiweth)] |}.
Proof.
  destruct (choice_dec p) as [Hp | Hp].
  2:{ rewrite (main_rejected _ _ _ Hp). discriminate. }
  intros Hrun. split; [exact Hp|]. rewrite (main_known _ _ _ Hp) in *.
  destruct (get_height_cases net e start)
    as [(d & str & h & Hans & Herr & Hres & Hint & Hh)
       | [(d & _ & _ & _ & Hh)
       | [(d & _ & _ & Hh)
       | [(d & _ & _ & _ & [[_ Hh] | (str & _ & _ & Hh)])
       | (x & _ & _ & Hh)]]]];
    try (first [ rewrite (bind_raise _ _ _ _ _ Hh) in Hrun
               | rewrite (bind_exit _ _ _ _ _ Hh) in Hrun
               | rewrite (bind_value _ _ _ _ _ Hh) in Hrun ]; discriminate Hrun).
  rewrite (bind_value _ _ _ _ _ Hh) in *. cbn [stdout sent app start] in *.
  destruct (logs_tail_cases net e h)
    as [(d2 & Hans2 & Herr2 & Ht) | [(d2 & _ & _ & Ht) | (x & _ & _ & Ht)]];
    rewrite Ht in *; try discriminate Hrun.
  exists d, str, h, d2. repeat split; assumption.
Qed.

Lemma ok_means_both_calls_answered_witness :
  In "camelotv3" choices /\
  exists d1 str h d2,
    let net := two_replies [("result", VStr "0x1388")] [("result", VList [])] in
    answers net [] (height_request rpc_url) d1 /\
    truthy (dict_get d1 "error") = false /\
    dict_get d1 "result" = VStr str /\ int_base0 str = Some h /\
    answers net [height_request rpc_url] (logs_request rpc_url h (Some kujiweth)) d2 /\
    truthy (dict_get d2 "error") = false /\
    snd (main net ("camelotv3", rpc_url) start) =
      {| stdout := (logs_warning (dict_get d2 "result") ++ [VStr "ok"])%list;
         sent := [height_request rpc_url; logs_request rpc_url h (Some kujiweth)] |}.
Proof.
  apply (ok_means_both_calls_answered
           (two_replies [("result", VStr "0x1388")] [("result", VList [])])
           "camelotv3" rpc_url).
  reflexivity.
Defined.

(** X5.  Once [parse_args] has returned its [args], the only [sys.exit]
    the run can reach is the [sys.exit(1)] of [rpc_call]: it is reached
    only after an answered call whose [error] is truthy, and then that
    payload is all the run has printed.  (An uncaught exception ends the
    process with status 1 as well; this is about [sys.exit].) *)
Theorem sys_exit_only_on_truthy_error net args c :
  In (provider args) choices ->
  fst (main_with net args start) = Exit c ->
  c = 1 /\
  exists payload,
    truthy payload = true /\
    stdout (snd (main_with net args start)) = [payload] /\
    ((exists d, answers net [] (height_request (endpoint args)) d /\
                dict_get d "error" = payload) \/
     (exists h d, answers net [height_request (endpoint args)]
                    (logs_request (endpoint args) h (Some kujiweth)) d /\
                  dict_get d "error" = payload)).
Proof.
  intros Hp Hrun. rewrite (main_with_known _ _ Hp) in *.
  set (e := endpoint args) in *.
  destruct (get_height_cases net e start)
    as [(d & str & h & Hans & Herr & Hres & Hint & Hh)
       | [(d & _ & _ & _ & Hh)
       | [(d & Hans & Herr & Hh)
       | [(d & _ & _ & _ & [[_ Hh] | (str & _ & _ & Hh)])
       | (x & _ & _ & Hh)]]]];
    try (first [ rewrite (bind_raise _ _ _ _ _ Hh) in Hrun
               | rewrite (bind_value _ _ _ _ _ Hh) in Hrun ]; discriminate Hrun).
  - rewrite (bind_value _ _ _ _ _ Hh) in *. cbn [stdout sent app start] in *.
    destruct (logs_tail_cases net e h)
      as [(d2 & _ & _ & Ht) | [(d2 & Hans2 & Herr2 & Ht) | (x & _ & _ & Ht)]];
      rewrite Ht in *; try discriminate Hrun.
    injection Hrun as <-. split; [reflexivity|].
    exists (dict_get d2 "error"). repeat split; [exact Herr2|].
    right. exists h, d2. split; [exact Hans2 | reflexivity].
  - rewrite (bind_exit _ _ _ _ _ Hh) in *. injection Hrun as <-.
    split; [reflexivity|].
    exists (dict_get d "error"). repeat split; [exact Herr|].
    left. exists d. split; [exact Hans | reflexivity].
Qed.

Lemma sys_exit_only_on_truthy_error_witness :
  let net := two_replies [("result", VStr "0x1388")] [("error", rpc_error_payload)] in
  let args := {| provider := "camelotv3"; endpoint := rpc_url |} in
  fst (main_with net args start) = Exit 1 /\
  exists payload,
    truthy payload = true /\
    stdout (snd (main_with net args start)) = [payload].
Proof.
  cbv zeta. split; [reflexivity|].
  destruct (sys_exit_only_on_truthy_error
              (two_replies [("result", VStr "0x1388")] [("error", rpc_error_payload)])
              {| provider := "camelotv3"; endpoint := rpc_url |} 1)
    as (_ & payload & Ht & Hout & _).
  - left. reflexivity.
  - reflexivity.
  - exists payload. split; [exact Ht | exact Hout].
Defined.

(** X6.  When the height call is not answered, the run stops there in an
    exception, with that one request sent and nothing printed:
    [RequestException] without a response, [HTTPError] on an error
    status, [JSONDecodeError] on a body that is not JSON, and
    [AttributeError] on JSON that is not an object. *)
Theorem unanswered_height_call_raises net p e :
  In p choices ->
  (forall d, ~ answers net [] (height_request e) d) ->
  main net (p, e) start =
  (Raise
     match net [] (height_request e) with
     | None => RequestException
     | Some resp =>
         if error_status resp then HTTPError
         else match body resp with
              | None => JSONDecodeError
              | Some _ => AttributeError
              end
     end,
   {| stdout := []; sent := [height_request e] |}).
Proof.
  intros Hp Hno. rewrite (main_known _ _ _ Hp).
  apply bind_raise. unfold get_height. apply bind_raise.
  rewrite rpc_call_cases. cbv zeta. cbn [sent stdout start app].
  fold (height_request e).
  destruct (net [] (height_request e)) as [resp|] eqn:Hnet; [|reflexivity].
  destruct (error_status resp) eqn:Hst; [reflexivity|].
  destruct (body resp) as [[| | | | | |d]|] eqn:Hbody; try reflexivity.
  contradiction (Hno d). exists resp. repeat split; assumption.
Qed.

Lemma unanswered_height_call_raises_witness :
  main (scripted [{| status_code := 200;
                     body := Some (VList [VDict [("result", VStr "0x1388")]]) |}])
    ("camelotv3", rpc_url) start =
  (Raise AttributeError, {| stdout := []; sent := [height_request rpc_url] |}).
Proof.
  apply (unanswered_height_call_raises
           (scripted [{| status_code := 200;
                         body := Some (VList [VDict [("result", VStr "0x1388")]]) |}])
           "camelotv3" rpc_url).
  - left. reflexivity.
  - intros d (resp & Hnet & _ & Hbody). injection Hnet as <-. discriminate Hbody.
Defined.

(** X7.  A height that is truthy but no string (a JSON number, say) ends
    the run in a [TypeError], and a string that is no integer literal in a
    [ValueError]; in both cases only the height call was sent and nothing
    was printed. *)
Theorem undecodable_height_raises net p e d :
  In p choices ->
  answers net [] (height_request e) d ->
  truthy (dict_get d "error") = false ->
  truthy (dict_get d "result") = true ->
  ((forall s, dict_get d "result" <> VStr s) ->
   main net (p, e) start =
   (Raise TypeError, {| stdout := []; sent := [height_request e] |})) /\
  (forall s, dict_get d "result" = VStr s -> int_base0 s = None ->
   main net (p, e) start =
   (Raise ValueError, {| stdout := []; sent := [height_request e] |})).
Proof.
  intros Hp Hans Herr Hres.
  assert (Hcall := rpc_call_result net e "eth_blockNumber" (VList []) start d Hans Herr).
  split.
  - intros Hns. rewrite (main_known _ _ _ Hp). apply bind_raise.
    unfold get_height. rewrite (bind_value _ _ _ _ _ Hcall), Hres. cbn [negb].
    destruct (dict_get d "result") as [| | | |s| |]; try reflexivity.
    contradiction (Hns s). reflexivity.
  - intros s Hs Hint. rewrite (main_known _ _ _ Hp). apply bind_raise.
    unfold get_height. rewrite (bind_value _ _ _ _ _ Hcall), Hres. cbn [negb].
    rewrite Hs. unfold bind. cbn. rewrite Hint. reflexivity.
Qed.

Lemma undecodable_height_raises_witness :
  main (two_replies [("result", VInt 5000)] [("result", VList [])])
    ("camelotv3", rpc_url) start =
  (Raise TypeError, {| stdout := []; sent := [height_request rpc_url] |}) /\
  main (two_replies [("result", VStr "latest")] [("result", VList [])])
    ("camelotv3", rpc_url) start =
  (Raise ValueError, {| stdout := []; sent := [height_request rpc_url] |}).
Proof.
  split.
  - destruct (undecodable_height_raises
                (two_replies [("result", VInt 5000)] [("result", VList [])])
                "camelotv3" rpc_url [("result", VInt 5000)]) as [H _].
    + left. reflexivity.
    + exists (ok200 [("result", VInt 5000)]). repeat split.
    + reflexivity.
    + reflexivity.
    + apply H. intros s. discriminate.
  - destruct (undecodable_height_raises
                (two_replies [("result", VStr "latest")] [("result", VList [])])
                "camelotv3" rpc_url [("result", VStr "latest")]) as [_ H].
    + left. reflexivity.
    + exists (ok200 [("result", VStr "latest")]). repeat split.
    + reflexivity.
    + reflexivity.
    + apply (H "latest"); reflexivity.
Defined.

(** ** [hex] against [int(s, 0)] *)

(** X8.  [int(hex(n), 0) == n] for every integer [n], negative ones
    included; hence [hex] is injective. *)
Theorem hex_then_int_is_identity :
  (forall n, int_base0 (hex n) = Some n) /\
  (forall m n, hex m = hex n -> m = n).
Proof.
  split; [exact int_base0_hex|].
  intros m n H. pose proof (int_base0_hex m) as Hm.
  rewrite H, int_base0_hex in Hm. injection Hm as ->. reflexivity.
Qed.

(** X9.  The canonical block heights are exactly the results of [hex] on
    the non-negative integers. *)
Theorem canonical_iff_hex s :
  canonical_hex s = true <-> exists n, 0 <= n /\ s = hex n.
Proof.
  split.
  - intros H. destruct (canonical_hex_is_hex s H) as (n & Hn & Heq).
    exists n. split; [exact Hn | symmetry; exact Heq].
  - intros (n & Hn & ->). apply hex_is_canonical. exact Hn.
Qed.

(** X10.  What a server reads back from the window of [get_logs] is the
    pair [h - 2000] and [h], for every height [h]: both bounds are
    literals that [int(s, 0)] decodes, also when [h - 2000] is
    negative. *)
Theorem window_decodes_to_bounds h a :
  exists d from to,
    logs_params h a = VDict d /\
    lookup "fromBlock" d = Some (VStr from) /\
    lookup "toBlock" d = Some (VStr to) /\
    int_base0 from = Some (h - 2000) /\
    int_base0 to = Some h.
Proof.
  eexists. exists (hex (h - 2000)), (hex h). unfold logs_params.
  split; [reflexivity|]. repeat split; try reflexivity; apply int_base0_hex.
Qed.

(** X11.  [get_height] decodes every result of [hex], zero and negative
    numbers included: a height ["0x0"] is a height, not a missing one,
    and nothing rejects a negative one. *)
Theorem get_height_decodes_hex net e w d n :
  answers net (sent w) (height_request e) d ->
  truthy (dict_get d "error") = false ->
  dict_get d "result" = VStr (hex n) ->
  get_height net e w =
  (Value (Some n),
   {| stdout := stdout w; sent := (sent w ++ [height_request e])%list |}).
Proof.
  intros Hans Herr Hres.
  apply (get_height_decoded net e w d (hex n) n Hans Herr Hres).
  apply int_base0_hex.
Qed.

Lemma get_height_decodes_hex_witness :
  get_height (scripted [ok200 [("result", VStr "0x0")]]) rpc_url start =
  (Value (Some 0), {| stdout := []; sent := [height_request rpc_url] |}) /\
  get_height (scripted [ok200 [("result", VStr "-0x10")]]) rpc_url start =
  (Value (Some (-16)), {| stdout := []; sent := [height_request rpc_url] |}).
Proof.
  split.
  - apply (get_height_decodes_hex _ rpc_url start [("result", VStr "0x0")] 0).
    + exists (ok200 [("result", VStr "0x0")]). repeat split.
    + reflexivity.
    + reflexivity.
  - apply (get_height_decodes_hex _ rpc_url start [("result", VStr "-0x10")] (-16)).
    + exists (ok200 [("result", VStr "-0x10")]). repeat split.
    + reflexivity.
    + reflexivity.
Defined.

(** * Further properties of the pair mapping *)

(** ** [split] *)

Lemma split_not_nil sep s : split sep s <> [].
Proof.
  destruct s as [|c s]; cbn [split]; [discriminate|].
  destruct (Ascii.eqb c sep); [discriminate|].
  destruct (split sep s); discriminate.
Qed.

Lemma split_free sep s : free_of sep s = true -> split sep s = [s].
Proof.
  induction s as [|c s IH]; cbn [split free_of]; [reflexivity|].
  intros H. apply andb_prop in H as [Hc Hs]. apply negb_true_iff in Hc.
  rewrite Hc, (IH Hs). reflexivity.
Qed.

Lemma split_at_first sep b r :
  free_of sep b = true ->
  split sep (b ++ String sep r) = b :: split sep r.
Proof.
  induction b as [|c b IH]; cbn [split free_of append].
  - intros _. rewrite Ascii.eqb_refl. reflexivity.
  - intros H. apply andb_prop in H as [Hc Hb]. apply negb_true_iff in Hc.
    rewrite Hc, (IH Hb). reflexivity.
Qed.

(** The first piece has no separator, and the rest is the split of what
    follows the first separator. *)
Lemma split_inv sep s :
  forall p ps,
    split sep s = p :: ps ->
    free_of sep p = true /\
    ((ps = [] /\ s = p) \/
     (exists r, s = (p ++ String sep r)%string /\ split sep r = ps)).
Proof.
  induction s as [|c s IH]; intros p ps; cbn [split].
  - intros H. injection H as <- <-. split; [reflexivity|]. left. split; reflexivity.
  - destruct (Ascii.eqb_spec c sep) as [-> | Hne].
    + intros H. injection H as <- <-. split; [reflexivity|].
      right. exists s. split; reflexivity.
    + destruct (split sep s) as [|p' ps'] eqn:Hs; [contradiction (split_not_nil sep s Hs)|].
      intros H. injection H as <- <-.
      destruct (IH p' ps' eq_refl) as [Hfree [[-> ->] | (r & -> & Hr)]].
      * split.
        { cbn [free_of]. rewrite Hfree.
          destruct (Ascii.eqb_spec c sep); [contradiction | reflexivity]. }
        left. split; reflexivity.
      * split.
        { cbn [free_of]. rewrite Hfree.
          destruct (Ascii.eqb_spec c sep); [contradiction | reflexivity]. }
        right. exists r. split; [reflexivity | exact Hr].
Qed.

Lemma base_quote_spec ws b q :
  MapKrakenPairs.base_quote (VStr ws) = inr (b, q) <->
  ws = (b ++ String "/" q)%string /\
  free_of "/" b = true /\ free_of "/" q = true.
Proof.
  unfold MapKrakenPairs.base_quote. split.
  - destruct (split "/" ws) as [|p0 [|p1 [|p2 l]]] eqn:Hs; try discriminate.
    intros H. injection H as <- <-.
    destruct (split_inv "/" ws p0 [p1] Hs) as [Hb [[Hnil _] | (r & -> & Hr)]];
      [discriminate Hnil|].
    destruct (split_inv "/" r p1 [] Hr) as [Hq [[_ ->] | (r' & _ & Hr')]].
    + repeat split; assumption.
    + contradiction (split_not_nil "/" r' Hr').
  - intros (-> & Hb & Hq).
    rewrite (split_at_first "/" b q Hb), (split_free "/" q Hq). reflexivity.
Qed.

(** X12.  The unpacking [base, quote = wsname.split("/")] succeeds
    exactly on the names with one slash: [wsname] is then [base], a
    slash and [quote], and neither part holds a slash. *)
Theorem base_quote_iff_one_slash ws b q :
  MapKrakenPairs.base_quote (VStr ws) = inr (b, q) <->
  ws = (b ++ String "/" q)%string /\
  free_of "/" b = true /\ free_of "/" q = true.
Proof. apply base_quote_spec. Qed.

(** ** The loop *)

Lemma visit_as_assignment mapping item :
  MapKrakenPairs.visit mapping item = inr
    match assignment item with
    | [] => mapping
    | (k, v) :: _ => dict_set k v mapping
    end \/
  exists e, MapKrakenPairs.visit mapping item = inl e.
Proof.
  destruct item as [symbol info]. unfold MapKrakenPairs.visit, assignment. cbn [fst snd].
  destruct (MapKrakenPairs.wsname_of info) as [e | w]; [right; exists e; reflexivity|].
  destruct (MapKrakenPairs.base_quote w) as [e | [b q]]; [right; exists e; reflexivity|].
  left. destruct (negb (String.eqb (b ++ q) symbol)); reflexivity.
Qed.

Lemma lookup_dict_set {A : Type} (k k' : string) (v : A) d :
  lookup k (dict_set k' v d) = if String.eqb k k' then Some v else lookup k d.
Proof.
  induction d as [|[k0 v0] d IH]; cbn [dict_set lookup].
  - reflexivity.
  - destruct (String.eqb_spec k' k0) as [-> | Hne]; cbn [lookup].
    + destruct (String.eqb k k0); reflexivity.
    + rewrite IH. destruct (String.eqb_spec k k0) as [-> | Hne2].
      * destruct (String.eqb_spec k0 k'); [congruence | reflexivity].
      * reflexivity.
Qed.

Lemma lookup_app {A : Type} (k : string) (l1 l2 : list (string * A)) :
  lookup k (l1 ++ l2) =
  match lookup k l1 with Some v => Some v | None => lookup k l2 end.
Proof.
  induction l1 as [|[k0 v0] l1 IH]; cbn [lookup app]; [reflexivity|].
  destruct (String.eqb k k0); [reflexivity | exact IH].
Qed.

Lemma dict_set_key_in {A : Type} (k : string) (v : A) d k' :
  In k' (map fst (dict_set k v d)) -> k' = k \/ In k' (map fst d).
Proof.
  induction d as [|[k0 v0] d IH]; cbn [dict_set map fst In].
  - intros [<- | []]. left. reflexivity.
  - destruct (String.eqb_spec k k0) as [-> | Hne]; cbn [map fst In].
    + intros H. right. exact H.
    + intros [<- | H]; [right; left; reflexivity|].
      destruct (IH H) as [-> | H']; [left; reflexivity | right; right; exact H'].
Qed.

(** Assigning to a key keeps the keys of a dict distinct. *)
Lemma dict_set_keys {A : Type} (k : string) (v : A) d :
  NoDup (map fst d) -> NoDup (map fst (dict_set k v d)).
Proof.
  induction d as [|[k0 v0] d IH]; cbn [dict_set map fst]; intros Hnd.
  - constructor; [intros [] | constructor].
  - inversion Hnd as [|? ? Hnotin Hnd']; subst.
    destruct (String.eqb_spec k k0) as [-> | Hne]; cbn [map fst].
    + constructor; assumption.
    + constructor; [|apply IH; exact Hnd'].
      intros H. destruct (dict_set_key_in k v d k0 H) as [-> | H'];
        [congruence | contradiction].
Qed.

Lemma assignment_cases item :
  assignment item = [] \/ exists k v, assignment item = [(k, v)].
Proof.
  unfold assignment.
  destruct (MapKrakenPairs.wsname_of (snd item)) as [e | w]; [left; reflexivity|].
  destruct (MapKrakenPairs.base_quote w) as [e | [b q]]; [left; reflexivity|].
  destruct (negb _); [right; eexists; eexists; reflexivity | left; reflexivity].
Qed.

Lemma visit_all_assignments items :
  forall m m',
    MapKrakenPairs.visit_all items m = inr m' ->
    m' = fold_left (fun acc kv => dict_set (fst kv) (snd kv) acc) (assignments items) m.
Proof.
  induction items as [|item items IH]; intros m m'; cbn [MapKrakenPairs.visit_all].
  - intros H. injection H as <-. reflexivity.
  - destruct (visit_as_assignment m item) as [Hv | (e & Hv)]; rewrite Hv; [|discriminate].
    intros H. apply IH in H. subst m'.
    unfold assignments. cbn [flat_map]. rewrite fold_left_app. f_equal.
    destruct (assignment_cases item) as [-> | (k & v & ->)]; reflexivity.
Qed.

Lemma lookup_fold_set (l : list (string * string)) :
  forall m k,
    lookup k (fold_left (fun acc kv => dict_set (fst kv) (snd kv) acc) l m) =
    match lookup k (rev l) with
    | Some v => Some v
    | None => lookup k m
    end.
Proof.
  induction l as [|[k' v'] l IH]; intros m k; cbn [fold_left rev fst snd].
  - reflexivity.
  - rewrite IH, lookup_app, lookup_dict_set. cbn [lookup].
    destruct (lookup k (rev l)); [reflexivity|].
    destruct (String.eqb k k'); reflexivity.
Qed.

Lemma keys_fold_set (l : list (string * string)) :
  forall m,
    NoDup (map fst m) ->
    NoDup (map fst (fold_left (fun acc kv => dict_set (fst kv) (snd kv) acc) l m)).
Proof.
  induction l as [|[k v] l IH]; intros m H; cbn [fold_left fst snd].
  - exact H.
  - apply IH. apply dict_set_keys. exact H.
Qed.

Lemma in_fold_set (l : list (string * string)) :
  forall m k v,
    In (k, v) (fold_left (fun acc kv => dict_set (fst kv) (snd kv) acc) l m) ->
    In (k, v) l \/ In (k, v) m.
Proof.
  induction l as [|[k' v'] l IH]; intros m k v; cbn [fold_left fst snd].
  - intros H. right. exact H.
  - intros H. destruct (IH _ _ _ H) as [Hl | Hm].
    + left. right. exact Hl.
    + destruct (dict_set_In _ _ _ _ _ Hm) as [[-> ->] | Hold].
      * left. left. reflexivity.
      * right. exact Hold.
Qed.

Lemma main_printed_inv reply mapping :
  MapKrakenPairs.main reply = MapKrakenPairs.Printed mapping ->
  exists resp d,
    reply = Some resp /\ status_code resp = 200 /\ body resp = Some (VDict d) /\
    ((lookup "result" d = None /\ mapping = []) \/
     (exists pairs, lookup "result" d = Some (VDict pairs) /\
                    MapKrakenPairs.visit_all pairs [] = inr mapping)).
Proof.
  unfold MapKrakenPairs.main. destruct reply as [resp|]; [|discriminate].
  destruct (Z.eqb_spec (status_code resp) 200) as [Hst | Hst]; cbn [negb]; [|discriminate].
  destruct (body resp) as [data|] eqn:Hbody; [|discriminate].
  unfold MapKrakenPairs.get_result.
  destruct data as [| | | | | |d]; try discriminate.
  destruct (lookup "result" d) as [[| | | | | |pairs]|] eqn:Hres; try discriminate.
  - destruct (MapKrakenPairs.visit_all pairs []) as [e | m] eqn:Hv; [discriminate|].
    intros H. injection H as <-. exists resp, d. repeat split; try assumption.
    right. exists pairs. split; [exact Hres | exact Hv].
  - cbn. intros H. injection H as <-. exists resp, d. repeat split; try assumption.
    left. split; [exact Hres | reflexivity].
Qed.

(** X13.  The printed mapping is a dict in which the last assignment to a
    key wins: its keys are pairwise distinct, and looking a key up gives
    the symbol of the last pair of the reply that was entered under it. *)
Theorem last_pair_wins resp d pairs mapping :
  body resp = Some (VDict d) ->
  lookup "result" d = Some (VDict pairs) ->
  MapKrakenPairs.main (Some resp) = MapKrakenPairs.Printed mapping ->
  NoDup (map fst mapping) /\
  forall k, lookup k mapping = lookup k (rev (assignments pairs)).
Proof.
  intros Hbody Hres Hmain.
  destruct (main_printed_inv _ _ Hmain) as (r & d' & Hr & _ & Hb & Hcases).
  injection Hr as <-. rewrite Hbody in Hb. injection Hb as <-.
  destruct Hcases as [[Hnone _] | (pairs' & Hres' & Hv)]; [congruence|].
  rewrite Hres in Hres'. injection Hres' as <-.
  apply visit_all_assignments in Hv. subst mapping. split.
  - apply keys_fold_set. constructor.
  - intros k. rewrite lookup_fold_set. cbn [lookup].
    destruct (lookup k (rev (assignments pairs))); reflexivity.
Qed.

Lemma last_pair_wins_witness :
  let pairs := [("XXBTZUSD", asset_pair "XBTUSD" "XBT/USD");
                ("XBTUSD.d", asset_pair "XBTUSD" "XBT/USD")] in
  MapKrakenPairs.main (Some (ok200 [("result", VDict pairs)])) =
    MapKrakenPairs.Printed [("XBTUSD", "XBTUSD.d")] /\
  lookup "XBTUSD" [("XBTUSD", "XBTUSD.d")] =
    lookup "XBTUSD" (rev (assignments pairs)).
Proof.
  cbv zeta. split; [reflexivity|].
  destruct (last_pair_wins
              (ok200 [("result", VDict [("XXBTZUSD", asset_pair "XBTUSD" "XBT/USD");
                                        ("XBTUSD.d", asset_pair "XBTUSD" "XBT/USD")])])
              [("result", VDict [("XXBTZUSD", asset_pair "XBTUSD" "XBT/USD");
                                 ("XBTUSD.d", asset_pair "XBTUSD" "XBT/USD")])]
              [("XXBTZUSD", asset_pair "XBTUSD" "XBT/USD");
               ("XBTUSD.d", asset_pair "XBTUSD" "XBT/USD")]
              [("XBTUSD", "XBTUSD.d")] eq_refl eq_refl eq_refl) as [_ H].
  apply H.
Defined.

Lemma in_assignments items k v :
  In (k, v) (assignments items) <->
  exists info b q,
    In (v, info) items /\
    MapKrakenPairs.wsname_of info = inr (VStr (b ++ String "/" q)) /\
    free_of "/" b = true /\ free_of "/" q = true /\
    k = (b ++ q)%string /\ k <> v.
Proof.
  unfold assignments. rewrite in_flat_map. split.
  - intros ([symbol info] & Hin & Hass). unfold assignment in Hass. cbn [fst snd] in Hass.
    destruct (MapKrakenPairs.wsname_of info) as [e | w] eqn:Hw; [contradiction|].
    destruct (MapKrakenPairs.base_quote w) as [e | [b q]] eqn:Hbq; [contradiction|].
    destruct (String.eqb_spec (b ++ q) symbol) as [Heq | Hne]; cbn [negb] in Hass;
      [contradiction|].
    destruct Hass as [H | []]. injection H as <- <-.
    destruct w as [| | | |ws| |]; try discriminate Hbq.
    apply base_quote_spec in Hbq as (-> & Hb & Hq).
    exists info, b, q. repeat split; assumption.
  - intros (info & b & q & Hin & Hw & Hb & Hq & -> & Hne).
    exists (v, info). split; [exact Hin|]. unfold assignment. cbn [fst snd].
    rewrite Hw.
    rewrite (proj2 (base_quote_spec (b ++ String "/" q) b q)) by (repeat split; assumption).
    destruct (String.eqb_spec (b ++ q) v); [contradiction|]. left. reflexivity.
Qed.

Lemma lookup_of_in {A : Type} (k : string) (v : A) l :
  In (k, v) l -> exists v', lookup k l = Some v'.
Proof.
  induction l as [|[k0 v0] l IH]; [intros []|]. cbn [lookup In].
  destruct (String.eqb_spec k k0) as [-> | Hne].
  - intros _. exists v0. reflexivity.
  - intros [H | H]; [congruence | exact (IH H)].
Qed.

(** X14.  Every entry of the printed mapping comes from a pair of the
    reply: its value is the Kraken symbol of a pair whose [wsname] is
    [base/quote], and its key is [base + quote].  And every pair named
    otherwise than its symbol has its concatenated name among the keys. *)
Theorem mapping_entries_come_from_pairs resp d pairs mapping :
  body resp = Some (VDict d) ->
  lookup "result" d = Some (VDict pairs) ->
  MapKrakenPairs.main (Some resp) = MapKrakenPairs.Printed mapping ->
  (forall k v, In (k, v) mapping ->
     exists info b q,
       In (v, info) pairs /\
       MapKrakenPairs.wsname_of info = inr (VStr (b ++ String "/" q)) /\
       k = (b ++ q)%string) /\
  (forall symbol info b q,
     In (symbol, info) pairs ->
     MapKrakenPairs.wsname_of info = inr (VStr (b ++ String "/" q)) ->
     free_of "/" b = true -> free_of "/" q = true ->
     (b ++ q)%string <> symbol ->
     exists v, lookup (b ++ q) mapping = Some v).
Proof.
  intros Hbody Hres Hmain.
  destruct (main_printed_inv _ _ Hmain) as (r & d' & Hr & _ & Hb & Hcases).
  injection Hr as <-. rewrite Hbody in Hb. injection Hb as <-.
  destruct Hcases as [[Hnone _] | (pairs' & Hres' & Hv)]; [congruence|].
  rewrite Hres in Hres'. injection Hres' as <-.
  apply visit_all_assignments in Hv. subst mapping. split.
  - intros k v Hin. destruct (in_fold_set _ _ _ _ Hin) as [Hl | []].
    apply in_assignments in Hl as (info & b & q & Hi & Hw & _ & _ & Hk & _).
    exists info, b, q. repeat split; assumption.
  - intros symbol info b q Hin Hw Hfb Hfq Hne.
    assert (Hass : In ((b ++ q)%string, symbol) (assignments pairs)).
    { apply in_assignments. exists info, b, q. repeat split; assumption. }
    rewrite lookup_fold_set. apply in_rev in Hass.
    destruct (lookup_of_in _ _ _ Hass) as (v' & ->). exists v'. reflexivity.
Qed.

Lemma mapping_entries_come_from_pairs_witness :
  exists info b q,
    In ("XETHZEUR", info)
       [("XXBTZUSD", asset_pair "XBTUSD" "XBT/USD");
        ("ADAUSD", asset_pair "ADAUSD" "ADA/USD");
        ("XETHZEUR", asset_pair "ETHEUR" "ETH/EUR")] /\
    MapKrakenPairs.wsname_of info = inr (VStr (b ++ String "/" q)) /\
    "ETHEUR" = (b ++ q)%string.
Proof.
  destruct (mapping_entries_come_from_pairs asset_pairs_reply
              [("error", VList []);
               ("result", VDict [("XXBTZUSD", asset_pair "XBTUSD" "XBT/USD");
                                 ("ADAUSD", asset_pair "ADAUSD" "ADA/USD");
                                 ("XETHZEUR", asset_pair "ETHEUR" "ETH/EUR")])]
              [("XXBTZUSD", asset_pair "XBTUSD" "XBT/USD");
               ("ADAUSD", asset_pair "ADAUSD" "ADA/USD");
               ("XETHZEUR", asset_pair "ETHEUR" "ETH/EUR")]
              [("XBTUSD", "XXBTZUSD"); ("ETHEUR", "XETHZEUR")]
              eq_refl eq_refl eq_refl) as [H _].
  apply (H "ETHEUR" "XETHZEUR"). right. left. reflexivity.
Defined.

Lemma visit_all_ok items :
  forall m m',
    MapKrakenPairs.visit_all items m = inr m' -> forallb wsname_ok items = true.
Proof.
  induction items as [|[symbol info] items IH]; intros m m';
    cbn [MapKrakenPairs.visit_all forallb]; [reflexivity|].
  destruct (MapKrakenPairs.visit m (symbol, info)) as [e | m1] eqn:Hv; [discriminate|].
  intros H. rewrite (IH _ _ H), andb_true_r.
  unfold MapKrakenPairs.visit, MapKrakenPairs.wsname_of in Hv.
  unfold wsname_ok. cbn [snd].
  destruct info as [| | | | | |dd]; try discriminate Hv.
  destruct (lookup "wsname" dd) as [w|]; [|discriminate Hv].
  unfold MapKrakenPairs.base_quote in Hv.
  destruct w as [| | | |ws| |]; try discriminate Hv.
  destruct (split "/" ws) as [|p0 [|p1 [|p2 l]]]; try discriminate Hv. reflexivity.
Qed.

(** X15.  How a run of the script ends.  It prints a mapping exactly when
    the reply has status 200 and its body is a JSON object whose
    [result] is either absent or an object all of whose values are
    objects with a [wsname] string with exactly one slash; a missing
    [result] prints the empty mapping.  It logs its error, and prints
    nothing, exactly when there is a reply with another status than
    200. *)
Theorem pair_mapping_outcomes reply :
  ((exists mapping, MapKrakenPairs.main reply = MapKrakenPairs.Printed mapping) <->
   exists resp d,
     reply = Some resp /\ status_code resp = 200 /\ body resp = Some (VDict d) /\
     (lookup "result" d = None \/
      exists pairs, lookup "result" d = Some (VDict pairs) /\
                    forallb wsname_ok pairs = true)) /\
  (forall resp d,
     reply = Some resp -> status_code resp = 200 -> body resp = Some (VDict d) ->
     lookup "result" d = None ->
     MapKrakenPairs.main reply = MapKrakenPairs.Printed []) /\
  (forall message,
     MapKrakenPairs.main reply = MapKrakenPairs.Logged message <->
     exists resp, reply = Some resp /\ status_code resp <> 200 /\
                  message = "Failed to get asset pairs"%string).
Proof.
  split; [split|split].
  - intros (mapping & Hmain).
    destruct (main_printed_inv _ _ Hmain) as (resp & d & Hr & Hst & Hb & Hcases).
    exists resp, d. repeat split; try assumption.
    destruct Hcases as [[Hnone _] | (pairs & Hres & Hv)]; [left; exact Hnone|].
    right. exists pairs. split; [exact Hres|]. exact (visit_all_ok _ _ _ Hv).
  - intros (resp & d & -> & Hst & Hb & [Hnone | (pairs & Hres & Hok)]).
    + exists []. unfold MapKrakenPairs.main. rewrite Hst, Hb. cbn. rewrite Hnone.
      reflexivity.
    + apply (main_prints_on_well_formed_reply resp d pairs Hst Hb Hres Hok).
  - intros resp d -> Hst Hb Hnone. unfold MapKrakenPairs.main.
    rewrite Hst, Hb. cbn. rewrite Hnone. reflexivity.
  - intros message. unfold MapKrakenPairs.main. split.
    + destruct reply as [resp|]; [|discriminate].
      destruct (Z.eqb_spec (status_code resp) 200) as [Hst | Hst]; cbn [negb].
      * destruct (body resp) as [data|]; [|discriminate].
        destruct (MapKrakenPairs.get_result data) as [e | [| | | | | |pairs]];
          try discriminate.
        destruct (MapKrakenPairs.visit_all pairs []); discriminate.
      * intros H. injection H as <-. exists resp. repeat split. exact Hst.
    + intros (resp & -> & Hst & ->).
      destruct (Z.eqb_spec (status_code resp) 200); [contradiction | reflexivity].
Qed.

(** * Properties of the converter *)

Lemma records_spec clock lines :
  forall acc out,
    Convert.records clock lines acc = inr out ->
    exists rs,
      out = (acc ++ rs)%list /\
      Forall2 (fun line r => Convert.record_of clock line = inr r) lines rs.
Proof.
  induction lines as [|line lines IH]; intros acc out; cbn [Convert.records].
  - intros H. injection H as <-. exists []. rewrite app_nil_r.
    split; [reflexivity | constructor].
  - destruct (Convert.record_of clock line) as [e | r] eqn:Hr; [discriminate|].
    intros H. destruct (IH _ _ H) as (rs & -> & Hall).
    exists (r :: rs). rewrite <- app_assoc. split; [reflexivity|].
    constructor; assumption.
Qed.

Lemma records_first_failure clock pre :
  forall acc line post e,
    Forall (fun l => exists r, Convert.record_of clock l = inr r) pre ->
    Convert.record_of clock line = inl e ->
    Convert.records clock (pre ++ line :: post) acc = inl e.
Proof.
  induction pre as [|l pre IH]; intros acc line post e Hpre Hline;
    cbn [Convert.records app].
  - rewrite Hline. reflexivity.
  - inversion Hpre as [|? ? (r & Hr) Hpre']; subst. rewrite Hr.
    apply IH; assumption.
Qed.

Lemma one_record_per_data_line_aux clock lines out :
  Convert.main clock lines = Convert.Printed out ->
  Forall2 (fun line r => Convert.record_of clock line = inr r) (tl lines) out.
Proof.
  unfold Convert.main.
  destruct (Convert.records clock (tl lines) []) as [e | o] eqn:Hrec; [discriminate|].
  intros H. injection H as <-.
  destruct (records_spec _ _ _ _ Hrec) as (rs & -> & Hall). exact Hall.
Qed.

Lemma Forall2_in_l {A B : Type} (R : A -> B -> Prop) l l' :
  Forall2 R l l' -> forall a, In a l -> exists b, R a b.
Proof.
  induction 1 as [|x y l l' Hxy _ IH]; intros a; [intros []|].
  intros [<- | Hin]; [exists y; exact Hxy | exact (IH a Hin)].
Qed.

(** X16.  When the converter prints, it prints one record for each line
    after the first, in the order of the lines; the first line is never
    read, and a file with no line or with the header alone gives the empty
    list. *)
Theorem one_record_per_data_line clock lines out :
  Convert.main clock lines = Convert.Printed out ->
  length out = length (tl lines) /\
  Forall2 (fun line r => Convert.record_of clock line = inr r) (tl lines) out /\
  (forall header, Convert.main clock (header :: tl lines) = Convert.Printed out) /\
  (length lines <= 1 -> out = [])%nat.
Proof.
  unfold Convert.main.
  destruct (Convert.records clock (tl lines) []) as [e | o] eqn:Hrec; [discriminate|].
  intros H. injection H as <-.
  destruct (records_spec _ _ _ _ Hrec) as (rs & -> & Hall). cbn [app].
  repeat split.
  - symmetry. apply (Forall2_length Hall).
  - exact Hall.
  - intros header. cbn [tl]. rewrite Hrec. reflexivity.
  - intros Hlen. destruct lines as [|h [|l ls]]; cbn in Hlen; try lia;
      inversion Hall; reflexivity.
Qed.

Lemma one_record_per_data_line_witness :
  length [VDict [("time", VStr "1970-01-01T00:00:00.000Z");
                 ("price", VStr "0.25"); ("volume", VStr "1000")];
          VDict [("time", VStr "2023-11-14T22:13:20.000Z");
                 ("price", VStr "1.5"); ("volume", VStr "12.75")]] =
  length (tl price_file).
Proof.
  apply (one_record_per_data_line two_instants price_file). reflexivity.
Defined.

(** X17.  The first line that cannot be converted decides the run: the
    converter raises what that line raises and prints nothing, whatever
    the lines before it gave. *)
Theorem first_bad_line_decides clock header pre line post e :
  Forall (fun l => exists r, Convert.record_of clock l = inr r) pre ->
  Convert.record_of clock line = inl e ->
  Convert.main clock (header :: pre ++ line :: post) = Convert.Raised e.
Proof.
  intros Hpre Hline. unfold Convert.main. cbn [tl].
  rewrite (records_first_failure clock pre [] line post e Hpre Hline). reflexivity.
Qed.

Lemma first_bad_line_decides_witness :
  Convert.main two_instants
    ("time;price;volume" :: ["0;0,25;1000"] ++ "x;y" :: ["1700000000;1,5;3"]) =
  Convert.Raised Convert.BadInteger.
Proof.
  apply first_bad_line_decides.
  - constructor; [|constructor]. eexists. reflexivity.
  - reflexivity.
Defined.

(** X18.  A blank line among the data, such as an empty line at the end
    of the file, cannot be converted: its only field is the empty string,
    which is no integer.  So a file with a blank data line is never
    printed. *)
Theorem blank_line_is_bad_integer clock lines line :
  Convert.strip line = ""%string ->
  Convert.record_of clock line = inl Convert.BadInteger /\
  (In line (tl lines) -> forall out, Convert.main clock lines <> Convert.Printed out).
Proof.
  intros Hblank.
  assert (Hrec : Convert.record_of clock line = inl Convert.BadInteger).
  { unfold Convert.record_of. rewrite Hblank. reflexivity. }
  split; [exact Hrec|].
  intros Hin out Hmain.
  pose proof (one_record_per_data_line_aux clock lines out Hmain) as Hall.
  destruct (Forall2_in_l _ _ _ Hall line Hin) as (r & Hr). congruence.
Qed.

Lemma blank_line_is_bad_integer_witness :
  Convert.main two_instants (price_file ++ [String "010" ""]) =
  Convert.Raised Convert.BadInteger /\
  forall out,
    Convert.main two_instants (price_file ++ [String "010" ""]) <> Convert.Printed out.
Proof.
  split; [reflexivity|].
  destruct (blank_line_is_bad_integer two_instants
              (price_file ++ [String "010" ""]) (String "010" "") eq_refl) as [_ H].
  apply H. cbn. right. right. left. reflexivity.
Defined.

(** ** The fields of a record *)

Lemma replace_free a b s : a <> b -> free_of a (Convert.replace a b s) = true.
Proof.
  intros Hab. induction s as [|c s IH]; cbn [Convert.replace free_of]; [reflexivity|].
  rewrite IH, andb_true_r. destruct (Ascii.eqb_spec c a) as [-> | Hne].
  - destruct (Ascii.eqb_spec b a); [congruence | reflexivity].
  - destruct (Ascii.eqb_spec c a); [congruence | reflexivity].
Qed.

Lemma replace_keeps_free c a b s :
  b <> c -> free_of c s = true -> free_of c (Convert.replace a b s) = true.
Proof.
  intros Hbc. induction s as [|x s IH]; cbn [Convert.replace free_of]; [reflexivity|].
  intros H. apply andb_prop in H as [Hx Hs]. rewrite (IH Hs), andb_true_r.
  destruct (Ascii.eqb x a); [|exact Hx].
  destruct (Ascii.eqb_spec b c); [congruence | reflexivity].
Qed.

Lemma replace_length a b s :
  String.length (Convert.replace a b s) = String.length s.
Proof.
  induction s as [|c s IH]; cbn [Convert.replace String.length];
    [reflexivity | rewrite IH; reflexivity].
Qed.

Lemma split_pieces_free sep s :
  forall p, In p (split sep s) -> free_of sep p = true.
Proof.
  induction s as [|c s IH]; cbn [split].
  - intros p [<- | []]. reflexivity.
  - destruct (Ascii.eqb_spec c sep) as [-> | Hne].
    + intros p [<- | H]; [reflexivity | exact (IH p H)].
    + destruct (split sep s) as [|p0 ps] eqn:Hs; [contradiction (split_not_nil sep s Hs)|].
      intros p [<- | H].
      * cbn [free_of]. rewrite (IH p0 (or_introl eq_refl)).
        destruct (Ascii.eqb_spec c sep); [contradiction | reflexivity].
      * apply IH. right. exact H.
Qed.

(** X19.  A line gives a record only if, once stripped, it has at least
    three fields between semicolons, the first of which is a decimal
    integer the clock accepts; fields after the third are ignored.  The
    price and the volume of the record are the second and third field
    with every comma turned into a point: they hold no comma and no
    semicolon, and have the length of the field. *)
Theorem record_fields clock line r :
  Convert.record_of clock line = inr r ->
  exists p0 p1 p2 rest n t,
    split ";" (Convert.strip line) = p0 :: p1 :: p2 :: rest /\
    Convert.int_base10 p0 = Some n /\ clock n = Some t /\
    r = VDict [("time", VStr t);
               ("price", VStr (Convert.replace "," "." p1));
               ("volume", VStr (Convert.replace "," "." p2))] /\
    free_of "," (Convert.replace "," "." p1) = true /\
    free_of "," (Convert.replace "," "." p2) = true /\
    free_of ";" (Convert.replace "," "." p1) = true /\
    free_of ";" (Convert.replace "," "." p2) = true /\
    String.length (Convert.replace "," "." p1) = String.length p1 /\
    String.length (Convert.replace "," "." p2) = String.length p2.
Proof.
  unfold Convert.record_of, Convert.field.
  pose proof (split_pieces_free ";" (Convert.strip line)) as Hfree.
  destruct (split ";" (Convert.strip line)) as [|p0 [|p1 [|p2 rest]]];
    cbn [nth_error]; try discriminate.
  - destruct (Convert.int_base10 p0) as [n|]; [|discriminate].
    destruct (clock n); discriminate.
  - destruct (Convert.int_base10 p0) as [n|]; [|discriminate].
    destruct (clock n); discriminate.
  - destruct (Convert.int_base10 p0) as [n|] eqn:Hn; [|discriminate].
    destruct (clock n) as [t|] eqn:Ht; [|discriminate].
    intros H. injection H as <-.
    exists p0, p1, p2, rest, n, t.
    assert (H1 : free_of ";" p1 = true) by (apply Hfree; right; left; reflexivity).
    assert (H2 : free_of ";" p2 = true) by (apply Hfree; right; right; left; reflexivity).
    repeat split; try assumption;
      try (apply replace_free; discriminate);
      try (apply replace_keeps_free; [discriminate | assumption]);
      apply replace_length.
Qed.

Lemma record_fields_witness :
  exists p0 p1 p2 rest n t,
    split ";" (Convert.strip (String.append "1700000000;1,5;12,75;note" (String "010" ""))) =
      p0 :: p1 :: p2 :: rest /\
    Convert.int_base10 p0 = Some n /\ two_instants n = Some t /\
    VDict [("time", VStr "2023-11-14T22:13:20.000Z");
           ("price", VStr "1.5"); ("volume", VStr "12.75")] =
    VDict [("time", VStr t);
           ("price", VStr (Convert.replace "," "." p1));
           ("volume", VStr (Convert.replace "," "." p2))].
Proof.
  destruct (record_fields two_instants
              (String.append "1700000000;1,5;12,75;note" (String "010" ""))
              (VDict [("time", VStr "2023-11-14T22:13:20.000Z");
                      ("price", VStr "1.5"); ("volume", VStr "12.75")]) eq_refl)
    as (p0 & p1 & p2 & rest & n & t & Hs & Hn & Ht & Hr & _).
  exists p0, p1, p2, rest, n, t. repeat split; assumption.
Defined.

(** X20.  A line with one or two fields raises the [IndexError] of the
    missing field when its first field is a timestamp the clock accepts,
    and the [ValueError] of [int] when the first field is no integer: the
    first field is converted before the others are looked at. *)
Theorem short_line_is_missing_field clock line p0 :
  (split ";" (Convert.strip line) = [p0] \/
   exists p1, split ";" (Convert.strip line) = [p0; p1]) ->
  (forall n t, Convert.int_base10 p0 = Some n -> clock n = Some t ->
     Convert.record_of clock line = inl Convert.MissingField) /\
  (Convert.int_base10 p0 = None ->
     Convert.record_of clock line = inl Convert.BadInteger).
Proof.
  intros Hs. unfold Convert.record_of, Convert.field. split.
  - intros n t Hn Ht. destruct Hs as [-> | (p1 & ->)]; cbn [nth_error];
      rewrite Hn, Ht; reflexivity.
  - intros Hn. destruct Hs as [-> | (p1 & ->)]; cbn [nth_error];
      rewrite Hn; reflexivity.
Qed.

Lemma short_line_is_missing_field_witness :
  Convert.record_of two_instants "0;0,25" = inl Convert.MissingField /\
  Convert.record_of two_instants "zero;0,25" = inl Convert.BadInteger.
Proof.
  split.
  - destruct (short_line_is_missing_field two_instants "0;0,25" "0") as [H _].
    + right. exists "0,25"%string. reflexivity.
    + apply (H 0 "1970-01-01T00:00:00.000Z"%string); reflexivity.
  - destruct (short_line_is_missing_field two_instants "zero;0,25" "zero") as [_ H].
    + right. exists "0,25"%string. reflexivity.
    + apply H. reflexivity.
Defined.
